(** * EncryptedFileTransfer-Server: the per-connection handler [Client]

    A shallow embedding of [client.py] (class [Client]) and the properties
    of its request dispatcher and handlers.

    The Python object and the process state it touches are one record,
    [State]; every method is a function in the monad [Py], which threads
    the state and carries Python's exceptions.  Mutations made before an
    exception is raised stay in the state, as in Python.

    The modules [client.py] imports but the repository does not ship here
    (the database, the response codec, the request codes, the checksum,
    the identifier derivation) and the library calls (UTF-8 decoding,
    PyCryptodome) are class parameters: every theorem holds for all of
    them.  Reference instances are given at the end of the definitions;
    they are used by the closed examples only. *)

From Stdlib Require Import ZArith Lia.
From Stdlib.Strings Require Import Byte.
From stdpp Require Import base option list gmap strings.

Local Open Scope Z_scope.

(** ** Bytes, text and integers *)

(** Python [bytes]. *)
Abbreviation bytes := (list byte).

(** Python [str]: a sequence of Unicode code points. *)
Abbreviation str := (list N).

#[global] Instance byte_eq_decision : EqDecision byte := Byte.byte_eq_dec.

Definition byte_to_Z (b : byte) : Z := Z.of_N (Byte.to_N b).

(** An unsigned little-endian integer, as [struct] reads it under [<]. *)
Fixpoint le_uint (bs : bytes) : Z :=
  match bs with
  | [] => 0
  | b :: bs' => byte_to_Z b + 256 * le_uint bs'
  end.

(** [data[i:j]] for constant bounds. *)
Definition slice (i j : nat) (data : bytes) : bytes := take (j - i) (drop i data).

(** [data.rstrip(b"\x00")]. *)
Fixpoint rstrip_zero_bytes (data : bytes) : bytes :=
  match data with
  | [] => []
  | b :: rest =>
      match rstrip_zero_bytes rest with
      | [] => if Byte.eqb b x00 then [] else [b]
      | kept => b :: kept
      end
  end.

(** [s.strip('\x00')]: NUL code points are removed at both ends. *)
Fixpoint lstrip_nul (s : str) : str :=
  match s with
  | [] => []
  | c :: rest => if N.eqb c 0 then lstrip_nul rest else s
  end.

Fixpoint rstrip_nul (s : str) : str :=
  match s with
  | [] => []
  | c :: rest =>
      match rstrip_nul rest with
      | [] => if N.eqb c 0 then [] else [c]
      | kept => c :: kept
      end
  end.

Definition strip_nul (s : str) : str := rstrip_nul (lstrip_nul s).

(** [s[:-1]]: everything but the last code point; the empty string stays
    empty. *)
Definition drop_last (s : str) : str := take (length s - 1)%nat s.

(** Text literals for the examples. *)
Definition text (s : string) : str :=
  (λ b, Byte.to_N b) <$> String.list_byte_of_string s.

Definition blob (s : string) : bytes := String.list_byte_of_string s.

(** ** Exceptions *)

(** The exceptions the modelled calls raise, and the classes the [except]
    clauses name.  [Unmodelled] is not a Python exception: a file-system
    call on a path outside the modelled fragment (see [resolve]) ends the
    run with it, so that nothing is claimed about such paths. *)
Inductive exn :=
  | ValueError
  | UnicodeDecodeError
  | TypeError
  | struct_error
  | OSError
  | ConnectionError
  | ConnectionResetError
  | FileNotFoundError
  | FileExistsError
  | IsADirectoryError
  | NotADirectoryError
  | Unmodelled.

(** [IOError] is an alias of [OSError] in Python 3. *)
Definition IOError : exn := OSError.

Definition exn_eqb (a b : exn) : bool :=
  match a, b with
  | ValueError, ValueError | UnicodeDecodeError, UnicodeDecodeError
  | TypeError, TypeError | struct_error, struct_error | OSError, OSError
  | ConnectionError, ConnectionError
  | ConnectionResetError, ConnectionResetError
  | FileNotFoundError, FileNotFoundError | FileExistsError, FileExistsError
  | IsADirectoryError, IsADirectoryError
  | NotADirectoryError, NotADirectoryError | Unmodelled, Unmodelled => true
  | _, _ => false
  end.

(** The direct base class, [None] for the children of [Exception]. *)
Definition base_class (e : exn) : option exn :=
  match e with
  | UnicodeDecodeError => Some ValueError
  | ConnectionError | FileNotFoundError | FileExistsError
  | IsADirectoryError | NotADirectoryError => Some OSError
  | ConnectionResetError => Some ConnectionError
  | _ => None
  end.

(** [isinstance(e, cls)]; the hierarchy above is two levels deep. *)
Definition isinstance (e cls : exn) : bool :=
  exn_eqb e cls
  || match base_class e with
     | Some b =>
         exn_eqb b cls
         || match base_class b with Some b' => exn_eqb b' cls | None => false end
     | None => false
     end.

(** [except (c1, c2, ...)] catches [e]. *)
Definition caught_by (classes : list exn) (e : exn) : bool :=
  existsb (isinstance e) classes.

(** ** Outcomes *)

Inductive Outcome (A : Type) :=
  | Ret (a : A)
  | Raise (e : exn)
  | OutOfFuel.
Arguments Ret {A} a.
Arguments Raise {A} e.
Arguments OutOfFuel {A}.

(** ** Responses

    The constructors of [protocol_handler] that [client.py] imports; a
    response is the value handed to [.send(self.connection)].  The
    identifier is passed as the attribute holds it, possibly [None]. *)
Inductive Response :=
  | failed_register
  | success_register (client_id : option bytes)
  | success_login (client_id : option bytes) (aes_key : bytes)
  | failed_login (client_id : option bytes)
  | send_aes_key (client_id : option bytes) (aes_key : bytes)
  | general_error
  | send_file_crc (client_id : option bytes) (content_size : Z)
      (file_name : str) (crc : Z)
  | send_final_confirmation (client_id : option bytes).

Definition is_general_error (r : Response) : bool :=
  match r with general_error => true | _ => false end.

(** ** The connection

    What the peer's side of the socket will deliver: each event is served
    by [recv] calls in order.  [Data d] is a run of bytes that has arrived
    together; one [recv(n)] returns at most [n] bytes of the first run and
    never waits for the next one.  [Reset] is a connection reset, raised by
    the [recv] that meets it.  The empty list is the orderly end of the
    stream: [recv] returns [b""]. *)
Inductive recv_event :=
  | Data (d : bytes)
  | Reset.

(** The first [n] bytes and the rest; [n] may be any 32-bit size, so the
    count is not converted to unary. *)
Fixpoint split_at (n : Z) (d : bytes) : bytes * bytes :=
  match d with
  | [] => ([], [])
  | b :: d' =>
      if n <=? 0 then ([], d)
      else let '(got, rest) := split_at (n - 1) d' in (b :: got, rest)
  end.

Definition socket_recv (n : Z) (incoming : list recv_event)
  : (exn + bytes) * list recv_event :=
  match incoming with
  | [] => (inr [], [])
  | Reset :: later => (inl ConnectionResetError, later)
  | Data d :: later =>
      let '(got, rest) := split_at n d in
      (inr got, match rest with [] => later | _ => Data rest :: later end)
  end.

(** ** [struct.unpack] *)

(** [struct.unpack('<16sBHI', header)]: client_id, version, code,
    payload_size.  The buffer must be exactly 23 bytes. *)
Definition unpack_header (header : bytes) : exn + (bytes * Z * Z * Z) :=
  if (length header =? 23)%nat then
    inr (slice 0 16 header,
         le_uint (slice 16 17 header),
         le_uint (slice 17 19 header),
         le_uint (slice 19 23 header))
  else inl struct_error.

(** [struct.unpack("<IIHH255s", buffer)]: content_size, decrypted_size,
    packet_number, total_packets, file_name.  The buffer must be exactly
    267 bytes. *)
Definition unpack_save_header (buffer : bytes)
  : exn + (Z * Z * Z * Z * bytes) :=
  if (length buffer =? 267)%nat then
    inr (le_uint (slice 0 4 buffer),
         le_uint (slice 4 8 buffer),
         le_uint (slice 8 10 buffer),
         le_uint (slice 10 12 buffer),
         slice 12 267 buffer)
  else inl struct_error.

(** ** [os.path] and the file system *)

Definition sep : N := 47%N.

(** [posixpath.join(a, b)] for two [str] arguments. *)
Definition os_path_join (a b : str) : str :=
  match b with
  | c :: _ => if N.eqb c sep then b
              else match a with
                   | [] => b
                   | _ => if bool_decide (last a = Some sep) then a ++ b
                          else a ++ sep :: b
                   end
  | [] => match a with
          | [] => []
          | _ => if bool_decide (last a = Some sep) then a else a ++ [sep]
          end
  end.

(** The working directory holds regular files and directories; a
    directory holds regular files. *)
Inductive node :=
  | RegularFile (content : bytes)
  | Directory (entries : gmap str bytes).

Abbreviation FS := (gmap str node).

(** A path component that names an entry: not empty, not [.] or [..], and
    free of [/] and NUL. *)
Definition plain (c : str) : bool :=
  negb (bool_decide (c = []))
  && negb (bool_decide (c = [46%N]))
  && negb (bool_decide (c = [46%N; 46%N]))
  && forallb (λ x, negb (N.eqb x sep) && negb (N.eqb x 0)) c.

Inductive location :=
  | AtTop (d : str)
  | Inside (d f : str).

Fixpoint split_sep (p : str) : str * option str :=
  match p with
  | [] => ([], None)
  | c :: rest =>
      if N.eqb c sep then ([], Some rest)
      else let '(d, f) := split_sep rest in (c :: d, f)
  end.

(** The modelled paths: [d] and [d/f] with plain components, relative to
    the working directory. *)
Definition resolve (p : str) : option location :=
  match split_sep p with
  | (d, None) => if plain d then Some (AtTop d) else None
  | (d, Some f) => if plain d && plain f then Some (Inside d f) else None
  end.

Definition located (p : str) : exn + location :=
  match resolve p with Some l => inr l | None => inl Unmodelled end.

(** [os.path.exists(p)]. *)
Definition os_path_exists (fs : FS) (p : str) : exn + bool :=
  match located p with
  | inl e => inl e
  | inr (AtTop d) => inr (bool_decide (is_Some (fs !! d)))
  | inr (Inside d f) =>
      match fs !! d with
      | Some (Directory entries) => inr (bool_decide (is_Some (entries !! f)))
      | _ => inr false
      end
  end.

(** [os.makedirs(p)]; the handler calls it on the client directory only. *)
Definition os_makedirs (fs : FS) (p : str) : exn + FS :=
  match located p with
  | inl e => inl e
  | inr (AtTop d) =>
      match fs !! d with
      | Some _ => inl FileExistsError
      | None => inr (<[d := Directory ∅]> fs)
      end
  | inr (Inside _ _) => inl Unmodelled
  end.

(** [os.remove(p)]. *)
Definition os_remove (fs : FS) (p : str) : exn + FS :=
  match located p with
  | inl e => inl e
  | inr (AtTop d) =>
      match fs !! d with
      | Some (RegularFile _) => inr (delete d fs)
      | Some (Directory _) => inl IsADirectoryError
      | None => inl FileNotFoundError
      end
  | inr (Inside d f) =>
      match fs !! d with
      | Some (Directory entries) =>
          match entries !! f with
          | Some _ => inr (<[d := Directory (delete f entries)]> fs)
          | None => inl FileNotFoundError
          end
      | Some (RegularFile _) => inl NotADirectoryError
      | None => inl FileNotFoundError
      end
  end.

(** [with open(p, 'ab') as file: file.write(data)]. *)
Definition append_file (fs : FS) (p : str) (data : bytes) : exn + FS :=
  match located p with
  | inl e => inl e
  | inr (AtTop d) =>
      match fs !! d with
      | Some (RegularFile old) => inr (<[d := RegularFile (old ++ data)]> fs)
      | Some (Directory _) => inl IsADirectoryError
      | None => inr (<[d := RegularFile data]> fs)
      end
  | inr (Inside d f) =>
      match fs !! d with
      | Some (Directory entries) =>
          inr (<[d := Directory (<[f := default [] (entries !! f) ++ data]> entries)]> fs)
      | Some (RegularFile _) => inl NotADirectoryError
      | None => inl FileNotFoundError
      end
  end.

(** [os.listdir(p)]. *)
Definition os_listdir (fs : FS) (p : str) : exn + list str :=
  match located p with
  | inl e => inl e
  | inr (AtTop d) =>
      match fs !! d with
      | Some (Directory entries) => inr (fst <$> map_to_list entries)
      | Some (RegularFile _) => inl NotADirectoryError
      | None => inl FileNotFoundError
      end
  | inr (Inside d f) =>
      match fs !! d with
      | Some (Directory entries) =>
          match entries !! f with
          | Some _ => inl NotADirectoryError
          | None => inl FileNotFoundError
          end
      | Some (RegularFile _) => inl NotADirectoryError
      | None => inl FileNotFoundError
      end
  end.

(** [os.rmdir(p)]. *)
Definition os_rmdir (fs : FS) (p : str) : exn + FS :=
  match located p with
  | inl e => inl e
  | inr (AtTop d) =>
      match fs !! d with
      | Some (Directory entries) =>
          if bool_decide (entries = ∅) then inr (delete d fs) else inl OSError
      | Some (RegularFile _) => inl NotADirectoryError
      | None => inl FileNotFoundError
      end
  | inr (Inside d f) =>
      match fs !! d with
      | Some (Directory entries) =>
          match entries !! f with
          | Some _ => inl NotADirectoryError
          | None => inl FileNotFoundError
          end
      | Some (RegularFile _) => inl NotADirectoryError
      | None => inl FileNotFoundError
      end
  end.

(** The bytes of a regular file, [None] when there is none at [p]. *)
Definition file_content (fs : FS) (p : str) : option bytes :=
  match resolve p with
  | Some (AtTop d) =>
      match fs !! d with Some (RegularFile c) => Some c | _ => None end
  | Some (Inside d f) =>
      match fs !! d with Some (Directory entries) => entries !! f | _ => None end
  | None => None
  end.

(** ** The modules and libraries [client.py] imports *)

(** [codes.RequestCode]: the numeric values are owned by a module outside
    this file; [match code] compares the unpacked integer with each of
    them in the order of the [case] clauses. *)
Class RequestCode := {
  REGISTRATION_REQUEST : Z;
  RECEIVE_PUBLIC_KEY : Z;
  LOGIN_REQUEST : Z;
  SAVE_FILE_REQUEST : Z;
  FILE_TRANSFER_SUCCESS : Z;
  CRC_MISMATCH : Z;
  FILE_TRANSFER_FAILED : Z;
}.

(** [self.database]: the calls [client.py] makes, with the results it
    tests.  A lookup answers [None] on a store error; a write answers
    whether it succeeded.  Lookups leave the store as it is. *)
Class Database (DB : Type) := {
  client_exists : DB → bytes → option bool;
  client_exists_by_id : DB → option bytes → str → option bool;
  get_public_key : DB → option bytes → option bytes;
  get_aes_key : DB → option bytes → option bytes;
  register_client : DB → option bytes → str → bool * DB;
  add_public_key : DB → option bytes → bytes → bool * DB;
  add_aes_key : DB → option bytes → bytes → bool * DB;
  update_last_seen : DB → option bytes → bool * DB;
  save_file : DB → option bytes → str → str → bool → bool * DB;
}.

(** Library calls.  [None] stands for the exception the call raises:
    [UnicodeDecodeError] for [bytes.decode], [ValueError] for
    [bytes.fromhex], [RSA.importKey] and [PKCS1_OAEP.encrypt].
    [get_random_bytes] is indexed by the number of earlier draws, and the
    padding of [PKCS1_OAEP] takes its randomness the same way. *)
Class Library := {
  decode : bytes → option str;
  fromhex : str → option bytes;
  string_to_uuid : str → str;
  RsaKey : Type;
  RSA_importKey : bytes → option RsaKey;
  PKCS1_OAEP_encrypt : RsaKey → nat → bytes → option bytes;
  get_random_bytes : nat → nat → bytes;
  AES_CBC_decrypt : bytes → bytes → bytes → bytes;
  crc_of_bytes : bytes → Z;
}.

(** ** The state: a [Client] object, its socket and store, the disk *)

Record State (DB : Type) := {
  incoming : list recv_event;     (* self.connection, what recv will see *)
  sent : list Response;           (* self.connection, what was sent *)
  database : DB;                  (* self.database *)
  client_id : option bytes;       (* self.client_id *)
  running : bool;                 (* self.running *)
  aes_key : option bytes;         (* self.aes_key *)
  name : option str;              (* self.name *)
  received_packets : Z;           (* self.received_packets *)
  disk : FS;                      (* the file system *)
  draws : nat;                    (* random draws made so far *)
}.
Arguments incoming {DB} _.
Arguments sent {DB} _.
Arguments database {DB} _.
Arguments client_id {DB} _.
Arguments running {DB} _.
Arguments aes_key {DB} _.
Arguments name {DB} _.
Arguments received_packets {DB} _.
Arguments disk {DB} _.
Arguments draws {DB} _.

(** [Client.__init__]. *)
Definition init {DB} (connection : list recv_event) (db : DB) (fs : FS)
  : State DB :=
  {| incoming := connection; sent := []; database := db; client_id := None;
     running := true; aes_key := None; name := None; received_packets := 0;
     disk := fs; draws := 0 |}.

Section Setters.
Context {DB : Type}.
Implicit Types s : State DB.

Definition set_incoming v (s : State DB) : State DB :=
  {| incoming := v; sent := sent s; database := database s;
     client_id := client_id s; running := running s; aes_key := aes_key s;
     name := name s; received_packets := received_packets s;
     disk := disk s; draws := draws s |}.
Definition set_sent v (s : State DB) : State DB :=
  {| incoming := incoming s; sent := v; database := database s;
     client_id := client_id s; running := running s; aes_key := aes_key s;
     name := name s; received_packets := received_packets s;
     disk := disk s; draws := draws s |}.
Definition set_database v (s : State DB) : State DB :=
  {| incoming := incoming s; sent := sent s; database := v;
     client_id := client_id s; running := running s; aes_key := aes_key s;
     name := name s; received_packets := received_packets s;
     disk := disk s; draws := draws s |}.
Definition set_client_id v (s : State DB) : State DB :=
  {| incoming := incoming s; sent := sent s; database := database s;
     client_id := v; running := running s; aes_key := aes_key s;
     name := name s; received_packets := received_packets s;
     disk := disk s; draws := draws s |}.
Definition set_running v (s : State DB) : State DB :=
  {| incoming := incoming s; sent := sent s; database := database s;
     client_id := client_id s; running := v; aes_key := aes_key s;
     name := name s; received_packets := received_packets s;
     disk := disk s; draws := draws s |}.
Definition set_aes_key v (s : State DB) : State DB :=
  {| incoming := incoming s; sent := sent s; database := database s;
     client_id := client_id s; running := running s; aes_key := v;
     name := name s; received_packets := received_packets s;
     disk := disk s; draws := draws s |}.
Definition set_name v (s : State DB) : State DB :=
  {| incoming := incoming s; sent := sent s; database := database s;
     client_id := client_id s; running := running s; aes_key := aes_key s;
     name := v; received_packets := received_packets s;
     disk := disk s; draws := draws s |}.
Definition set_received_packets v (s : State DB) : State DB :=
  {| incoming := incoming s; sent := sent s; database := database s;
     client_id := client_id s; running := running s; aes_key := aes_key s;
     name := name s; received_packets := v;
     disk := disk s; draws := draws s |}.
Definition set_disk v (s : State DB) : State DB :=
  {| incoming := incoming s; sent := sent s; database := database s;
     client_id := client_id s; running := running s; aes_key := aes_key s;
     name := name s; received_packets := received_packets s;
     disk := v; draws := draws s |}.
Definition set_draws v (s : State DB) : State DB :=
  {| incoming := incoming s; sent := sent s; database := database s;
     client_id := client_id s; running := running s; aes_key := aes_key s;
     name := name s; received_packets := received_packets s;
     disk := disk s; draws := v |}.
End Setters.

(** ** The monad of Python methods *)

Definition Py (DB A : Type) : Type := State DB → Outcome A * State DB.

Section Monad.
Context {DB : Type}.

Definition ret {A} (a : A) : Py DB A := λ s, (Ret a, s).

Definition bind {A B} (m : Py DB A) (k : A → Py DB B) : Py DB B :=
  λ s, match m s with
       | (Ret a, s') => k a s'
       | (Raise e, s') => (Raise e, s')
       | (OutOfFuel, s') => (OutOfFuel, s')
       end.

Definition raise {A} (e : exn) : Py DB A := λ s, (Raise e, s).

Definition out_of_fuel {A} : Py DB A := λ s, (OutOfFuel, s).

Definition gets {A} (f : State DB → A) : Py DB A := λ s, (Ret (f s), s).

Definition modify (f : State DB → State DB) : Py DB unit :=
  λ s, (Ret tt, f s).

(** A call that returns or raises without touching the state. *)
Definition lift {A} (r : exn + A) : Py DB A :=
  match r with inl e => raise e | inr a => ret a end.

(** [try: body except classes: handler]. *)
Definition try_except {A} (body : Py DB A) (classes : list exn)
    (handler : Py DB A) : Py DB A :=
  λ s, match body s with
       | (Raise e, s') =>
           if caught_by classes e then handler s' else (Raise e, s')
       | r => r
       end.
End Monad.

Notation "x <- m ;; k" := (bind m (λ x, k))
  (at level 100, m at next level, right associativity,
   format "'[v' x  <-  m  ;;  '/' k ']'").
Notation "m ;;; k" := (bind m (λ _, k))
  (at level 100, right associativity,
   format "'[v' m  ;;;  '/' k ']'").

(** ** class [Client] *)

Section Client.
Context {DB : Type} `{!Database DB} `{!RequestCode} `{!Library}.

Local Abbreviation Py := (Py DB).

(** [response.send(self.connection)]: the response is appended to what
    the peer has been sent.  Sending does not fail in this model. *)
Definition send (r : Response) : Py unit :=
  modify (λ s, set_sent (sent s ++ [r]) s).

(** [self.connection.recv(n)]. *)
Definition recv (n : Z) : Py bytes :=
  λ s, let '(r, rest) := socket_recv n (incoming s) in
       (match r with inl e => Raise e | inr d => Ret d end,
        set_incoming rest s).

(** [data.decode()]. *)
Definition py_decode (data : bytes) : Py str :=
  match decode data with
  | Some s => ret s
  | None => raise UnicodeDecodeError
  end.

(** A [str] argument of an [os.path] function: [None] is refused with
    [TypeError]. *)
Definition fspath (p : option str) : Py str :=
  match p with
  | Some s => ret s
  | None => raise TypeError
  end.

(** A file-system call that reads the disk. *)
Definition on_disk {A} (f : FS → exn + A) : Py A :=
  fs <- gets disk ;; lift (f fs).

(** A file-system call that changes the disk. *)
Definition change_disk (f : FS → exn + FS) : Py unit :=
  fs <- gets disk ;;
  fs' <- lift (f fs) ;;
  modify (set_disk fs').

(** A store call that writes: the store is replaced, the flag
    returned. *)
Definition db_write (f : DB → bool * DB) : Py bool :=
  db <- gets database ;;
  let '(ok, db') := f db in
  modify (set_database db') ;;;
  ret ok.

(** Lines 25-38 of [get_requests], the [try] statement.  [None] says
    that the method returned; otherwise the code and the payload go to
    the [match]. *)
Definition receive_request : Py (option (Z * bytes)) :=
  try_except
    (header <- recv 23 ;;
     if bool_decide (header = []) then
       modify (set_running false) ;;;
       ret None
     else if negb (length header =? 23)%nat then raise ValueError
     else
       fields <- lift (unpack_header header) ;;
       let '(cid, version, code, payload_size) := fields in
       modify (set_client_id (Some cid)) ;;;
       payload <- recv payload_size ;;
       ret (Some (code, payload)))
    [struct_error; ConnectionError; ValueError]
    (modify (set_running false) ;;;
     ret None).

(** [generate_aes_key]. *)
Definition generate_aes_key : Py bool :=
  db <- gets database ;;
  cid <- gets client_id ;;
  match get_public_key db cid with
  | None =>
      send general_error ;;;
      ret false
  | Some public_key =>
      match RSA_importKey public_key with
      | None => raise ValueError
      | Some rsa_key =>
          n <- gets draws ;;
          modify (set_draws (S n)) ;;;
          let key := get_random_bytes n 32 in
          modify (set_aes_key (Some key)) ;;;
          n' <- gets draws ;;
          modify (set_draws (S n')) ;;;
          match PKCS1_OAEP_encrypt rsa_key n' key with
          | None => raise ValueError
          | Some encrypted_aes_key =>
              cid' <- gets client_id ;;
              ok <- db_write (λ db, add_aes_key db cid' encrypted_aes_key) ;;
              if negb ok then
                send general_error ;;;
                ret false
              else ret true
          end
      end
  end.

(** [handle_register].  The [print] calls evaluate [payload.decode()];
    where that is the first decoding on the path it is kept, because it
    can raise. *)
Definition handle_register (payload : bytes) : Py unit :=
  db <- gets database ;;
  match client_exists db payload with
  | None => send general_error
  | Some true =>
      _ <- py_decode payload ;;
      send failed_register ;;;
      modify (set_running false)
  | Some false =>
      text <- py_decode payload ;;
      match fromhex (string_to_uuid text) with
      | None => raise ValueError
      | Some cid =>
          modify (set_client_id (Some cid)) ;;;
          cid' <- gets client_id ;;
          ok <- db_write (λ db, register_client db cid' text) ;;
          if negb ok then send general_error
          else
            modify (set_name (Some (drop_last text))) ;;;
            cid'' <- gets client_id ;;
            send (success_register cid'')
      end
  end.

(** [handle_login]. *)
Definition handle_login (payload : bytes) : Py unit :=
  cid <- gets client_id ;;
  text <- py_decode payload ;;
  db <- gets database ;;
  match client_exists_by_id db cid text with
  | None => send general_error
  | Some true =>
      modify (set_name (Some (drop_last text))) ;;;
      generated <- generate_aes_key ;;
      if negb generated then ret tt
      else
        db' <- gets database ;;
        cid' <- gets client_id ;;
        match get_aes_key db' cid' with
        | None => send general_error
        | Some key =>
            send (success_login cid' key) ;;;
            _ <- db_write (λ db, update_last_seen db cid') ;;
            ret tt
        end
  | Some false =>
      cid' <- gets client_id ;;
      send (failed_login cid')
  end.

(** [handle_public_key]. *)
Definition handle_public_key (payload : bytes) : Py unit :=
  let public_key := drop 255 payload in
  cid <- gets client_id ;;
  ok <- db_write (λ db, add_public_key db cid public_key) ;;
  if negb ok then send general_error
  else
    generated <- generate_aes_key ;;
    if negb generated then ret tt
    else
      db <- gets database ;;
      cid' <- gets client_id ;;
      match get_aes_key db cid' with
      | None => send general_error
      | Some key => send (send_aes_key cid' key)
      end.

(** [decrypt_data].  PyCryptodome raises before any block is decrypted:
    [AES.new] takes [len(key)], a [TypeError] for [None], and refuses a
    length other than 16, 24 or 32 with [ValueError]; the CBC [decrypt]
    refuses data whose length is not a multiple of the block size with
    [ValueError]. *)
Definition decrypt_data (data : bytes) : Py bytes :=
  let iv := replicate 16 x00 in
  key <- gets aes_key ;;
  match key with
  | None => raise TypeError
  | Some k =>
      if bool_decide (length k ∈ [16; 24; 32]%nat) then
        if (length data mod 16 =? 0)%nat then ret (AES_CBC_decrypt k iv data)
        else raise ValueError
      else raise ValueError
  end.

(** Modelled from the spec: the module [cksum] is not part of the
    sources.  The digest is a function of the bytes of the file, and
    [file_crc] answers [None] when there is no such file to read. *)
Definition file_crc (fs : FS) (file_path : str) : option Z :=
  crc_of_bytes <$> file_content fs file_path.

(** [handle_file_crc]. *)
Definition handle_file_crc (file_path file_name : str) (content_size : Z)
  : Py unit :=
  fs <- gets disk ;;
  match file_crc fs file_path with
  | None =>
      send general_error ;;;
      modify (set_running false)
  | Some crc =>
      cid <- gets client_id ;;
      send (send_file_crc cid content_size file_name crc)
  end.

(** The [try] suite of [handle_save_file], lines 133-162. *)
Definition save_file_suite (payload : bytes) : Py unit :=
  fields <- lift (unpack_save_header (take 267 payload)) ;;
  let '(content_size, decrypted_size, packet_number, total_packets, raw_name) :=
    fields in
  decoded <- py_decode raw_name ;;
  let file_name := strip_nul decoded in
  own <- gets name ;;
  dir <- fspath own ;;
  let file_path := os_path_join dir file_name in
  let encrypted_data := slice 267 (267 + 1024) payload in
  there <- on_disk (λ fs, os_path_exists fs dir) ;;
  (if negb there then change_disk (λ fs, os_makedirs fs dir) else ret tt) ;;;
  decrypted_data <- decrypt_data encrypted_data ;;
  let decrypted_data :=
    if packet_number =? total_packets then rstrip_zero_bytes decrypted_data
    else decrypted_data in
  count <- gets received_packets ;;
  (if count =? 0 then
     stale <- on_disk (λ fs, os_path_exists fs file_path) ;;
     if stale then change_disk (λ fs, os_remove fs file_path) else ret tt
   else ret tt) ;;;
  change_disk (λ fs, append_file fs file_path decrypted_data) ;;;
  modify (λ s, set_received_packets (received_packets s + 1) s) ;;;
  count' <- gets received_packets ;;
  if count' =? total_packets then
    modify (set_received_packets 0) ;;;
    handle_file_crc file_path file_name content_size
  else ret tt.

(** [handle_save_file]. *)
Definition handle_save_file (payload : bytes) : Py unit :=
  try_except (save_file_suite payload)
    [IOError; OSError; struct_error; FileNotFoundError]
    (send general_error ;;;
     modify (set_running false)).

(** [handle_transfer_success]. *)
Definition handle_transfer_success (payload : bytes) : Py unit :=
  decoded <- py_decode payload ;;
  let file_name := strip_nul decoded in
  cid <- gets client_id ;;
  own <- gets name ;;
  dir <- fspath own ;;
  ok <- db_write (λ db, save_file db cid file_name
                          (os_path_join dir file_name) true) ;;
  if negb ok then send general_error
  else
    cid' <- gets client_id ;;
    send (send_final_confirmation cid') ;;;
    modify (set_running false).

(** [handle_transfer_failed]. *)
Definition handle_transfer_failed (payload : bytes) : Py unit :=
  decoded <- py_decode payload ;;
  let file_name := strip_nul decoded in
  own <- gets name ;;
  dir <- fspath own ;;
  let file_path := os_path_join dir file_name in
  there <- on_disk (λ fs, os_path_exists fs file_path) ;;
  (if there then change_disk (λ fs, os_remove fs file_path) else ret tt) ;;;
  own' <- gets name ;;
  dir' <- fspath own' ;;
  listing <- on_disk (λ fs, os_listdir fs dir') ;;
  (if bool_decide (listing = []) then change_disk (λ fs, os_rmdir fs dir')
   else ret tt) ;;;
  cid <- gets client_id ;;
  ok <- db_write (λ db, save_file db cid file_name file_path false) ;;
  if negb ok then send general_error
  else
    cid' <- gets client_id ;;
    send (send_final_confirmation cid') ;;;
    modify (set_running false).

(** Lines 39-58 of [get_requests], the [match] statement. *)
Definition dispatch (code : Z) (payload : bytes) : Py unit :=
  if code =? REGISTRATION_REQUEST then handle_register payload
  else if code =? RECEIVE_PUBLIC_KEY then handle_public_key payload
  else if code =? LOGIN_REQUEST then handle_login payload
  else if code =? SAVE_FILE_REQUEST then handle_save_file payload
  else if code =? FILE_TRANSFER_SUCCESS then handle_transfer_success payload
  else if code =? CRC_MISMATCH then
    _ <- py_decode payload ;;
    ret tt
  else if code =? FILE_TRANSFER_FAILED then handle_transfer_failed payload
  else
    send general_error ;;;
    modify (set_running false).

(** One turn of the [while] loop.  [true] says that control went back to
    the loop test, [false] that the method returned. *)
Definition iteration : Py bool :=
  request <- receive_request ;;
  match request with
  | None => ret false
  | Some (code, payload) =>
      dispatch code payload ;;;
      ret true
  end.

(** [get_requests]: the loop runs for at most [fuel] turns. *)
Fixpoint get_requests (fuel : nat) : Py unit :=
  match fuel with
  | O => out_of_fuel
  | S fuel' =>
      active <- gets running ;;
      if active then
        again <- iteration ;;
        if again then get_requests fuel' else ret tt
      else ret tt
  end.

End Client.

(** ** Reference instances

    Concrete stand-ins for the parameters, for the closed examples.  The
    theorems do not depend on them. *)

Module Reference.

(** Sample values for the request codes, in the order of the [case]
    clauses. *)
#[export] Instance sample_codes : RequestCode := {|
  REGISTRATION_REQUEST := 1025;
  RECEIVE_PUBLIC_KEY := 1026;
  LOGIN_REQUEST := 1027;
  SAVE_FILE_REQUEST := 1028;
  FILE_TRANSFER_SUCCESS := 1029;
  CRC_MISMATCH := 1030;
  FILE_TRANSFER_FAILED := 1031;
|}.

(** [bytes.decode()] on ASCII input; a byte above 127 is refused here
    (the examples use it only for the byte [0xff], which no UTF-8 text
    contains). *)
Definition ascii_decode (data : bytes) : option str :=
  if forallb (λ b, (Byte.to_N b <? 128)%N) data
  then Some (Byte.to_N <$> data) else None.

Definition hex_digit (c : N) : option N :=
  if ((48 <=? c) && (c <=? 57))%N then Some (c - 48)%N
  else if ((97 <=? c) && (c <=? 102))%N then Some (c - 87)%N
  else if ((65 <=? c) && (c <=? 70))%N then Some (c - 55)%N
  else None.

(** [bytes.fromhex] on text made of hexadecimal digit pairs. *)
Fixpoint hex_pairs (fuel : nat) (s : str) : option bytes :=
  match fuel, s with
  | _, [] => Some []
  | S fuel', hi :: lo :: rest =>
      h ← hex_digit hi; l ← hex_digit lo;
      b ← Byte.of_N (16 * h + l); bs ← hex_pairs fuel' rest;
      Some (b :: bs)
  | _, _ => None
  end.

Definition hex_of_nibble (n : N) : N :=
  if (n <? 10)%N then (48 + n)%N else (87 + n)%N.

(** A 32-digit identifier text: the first sixteen code points of the
    name, each reduced to a byte, zero-padded. *)
Definition name_digest (s : str) : str :=
  mjoin ((λ c, [hex_of_nibble ((c mod 256) / 16); hex_of_nibble (c mod 16)])
           <$> take 16 (s ++ replicate 16 0%N)).

Definition sum_bytes (data : bytes) : Z :=
  foldr (λ b acc, (byte_to_Z b + acc) mod 4294967296) 0 data.

(** The cipher of the examples leaves the data as it is.
    [RSA.importKey] refuses a blob that does not start as a DER, PEM or
    OpenSSH encoding does, as PyCryptodome does; what it accepts is not
    looked at further. *)
#[export] Instance toy_library : Library := {|
  decode := ascii_decode;
  fromhex := λ s, hex_pairs (length s) s;
  string_to_uuid := name_digest;
  RsaKey := bytes;
  RSA_importKey := λ blob,
    match blob with
    | b :: _ =>
        if bool_decide (b ∈ [x30; "-"%byte; "s"%byte]) then Some blob else None
    | [] => None
    end;
  PKCS1_OAEP_encrypt := λ key _ message, Some (key ++ message);
  get_random_bytes := λ n len, replicate len (default x00 (Byte.of_N (N.of_nat n mod 256)));
  AES_CBC_decrypt := λ _ _ data, data;
  crc_of_bytes := sum_bytes;
|}.

(** Modelled from the spec: the module behind [self.database] is not
    part of the sources.  Accounts are kept by identifier with the name,
    the public key, the wrapped session key and the file records of the
    AccountStore contract; while [online] is false every lookup answers
    the error value and every write is refused. *)
Record account := {
  account_id : bytes;
  account_name : str;
  public_key : option bytes;
  wrapped_key : option bytes;
  last_seen : nat;
  files : list (str * str * bool);
}.

Record store := {
  online : bool;
  accounts : list account;
}.

Definition has_id (cid : option bytes) (a : account) : bool :=
  bool_decide (cid = Some (account_id a)).

Definition find_account (db : store) (cid : option bytes) : option account :=
  find (has_id cid) (accounts db).

Definition update_account (db : store) (cid : option bytes)
    (f : account → account) : bool * store :=
  if online db && bool_decide (is_Some (find_account db cid)) then
    (true, {| online := true;
              accounts := (λ a, if has_id cid a then f a else a) <$> accounts db |})
  else (false, db).

#[export] Instance list_store : Database store := {|
  client_exists db payload :=
    if online db then
      Some (existsb (λ a, bool_decide (ascii_decode payload = Some (account_name a)))
              (accounts db))
    else None;
  client_exists_by_id db cid text :=
    if online db then
      Some (existsb (λ a, has_id cid a && bool_decide (account_name a = text))
              (accounts db))
    else None;
  get_public_key db cid :=
    if online db then a ← find_account db cid; public_key a else None;
  get_aes_key db cid :=
    if online db then a ← find_account db cid; wrapped_key a else None;
  register_client db cid text :=
    match cid with
    | Some i =>
        if online db then
          (true, {| online := true;
                    accounts := accounts db ++
                      [{| account_id := i; account_name := text;
                          public_key := None; wrapped_key := None;
                          last_seen := 0; files := [] |}] |})
        else (false, db)
    | None => (false, db)
    end;
  add_public_key db cid key :=
    update_account db cid (λ a,
      {| account_id := account_id a; account_name := account_name a;
         public_key := Some key; wrapped_key := wrapped_key a;
         last_seen := last_seen a; files := files a |});
  add_aes_key db cid key :=
    update_account db cid (λ a,
      {| account_id := account_id a; account_name := account_name a;
         public_key := public_key a; wrapped_key := Some key;
         last_seen := last_seen a; files := files a |});
  update_last_seen db cid :=
    update_account db cid (λ a,
      {| account_id := account_id a; account_name := account_name a;
         public_key := public_key a; wrapped_key := wrapped_key a;
         last_seen := S (last_seen a); files := files a |});
  save_file db cid file_name path succeeded :=
    update_account db cid (λ a,
      {| account_id := account_id a; account_name := account_name a;
         public_key := public_key a; wrapped_key := wrapped_key a;
         last_seen := last_seen a;
         files := files a ++ [(file_name, path, succeeded)] |});
|}.

Definition empty_store : store := {| online := true; accounts := [] |}.

(** A store that answers lookups as the one it holds does, and refuses
    every write (a read-only replica). *)
Record frozen := { held : store }.

Definition frozen_store : Database frozen := {|
  client_exists db payload := client_exists (held db) payload;
  client_exists_by_id db cid text := client_exists_by_id (held db) cid text;
  get_public_key db cid := get_public_key (held db) cid;
  get_aes_key db cid := get_aes_key (held db) cid;
  register_client db _ _ := (false, db);
  add_public_key db _ _ := (false, db);
  add_aes_key db _ _ := (false, db);
  update_last_seen db _ := (false, db);
  save_file db _ _ _ _ := (false, db);
|}.



(** A 23-byte header: identifier, version 3, code and payload size in
    little-endian order. *)
Definition le_bytes (width : nat) (n : Z) : bytes :=
  (λ i, default x00 (Byte.of_N (Z.to_N ((n / 256 ^ Z.of_nat i) mod 256))))
    <$> seq 0 width.

Definition header (cid : bytes) (code size : Z) : bytes :=
  take 16 (cid ++ replicate 16 x00) ++ [x03] ++ le_bytes 2 code ++ le_bytes 4 size.

(** The 267-byte sub-header of a packet followed by its ciphertext. *)
Definition packet (content_size : Z) (number total : Z) (file_name : string)
    (ciphertext : bytes) : bytes :=
  le_bytes 4 content_size ++ le_bytes 4 content_size
  ++ le_bytes 2 number ++ le_bytes 2 total
  ++ take 255 (blob file_name ++ replicate 255 x00) ++ ciphertext.

End Reference.

(** ** Vocabulary of the statements *)


(** A method leaves an observation of the state as it was, however it
    ends. *)
Definition preserves {DB A X} (f : State DB → X) (m : Py DB A) : Prop :=
  ∀ s, f (m s).2 = f s.

(** The six handlers the [match] calls. *)
Inductive handler :=
  | Register | PublicKey | Login | SaveFile | TransferSuccess | TransferFailed.

Definition run_handler {DB} `{!Database DB} `{!Library}
    (h : handler) (payload : bytes) : Py DB unit :=
  match h with
  | Register => handle_register payload
  | PublicKey => handle_public_key payload
  | Login => handle_login payload
  | SaveFile => handle_save_file payload
  | TransferSuccess => handle_transfer_success payload
  | TransferFailed => handle_transfer_failed payload
  end.


(** The failure outcome on the disk: the file is removed when it is
    there, and the directory is removed when nothing is left in it. *)
Definition after_cleanup (fs : FS) (dir file_name : str)
    (entries : gmap str bytes) : FS :=
  let left := delete file_name entries in
  if bool_decide (left = ∅) then delete dir fs
  else <[dir := Directory left]> fs.

(** The client directory is there after the first lines of the chunk-save
    suite, created if need be. *)
Definition with_directory {DB} (dir : str) (s : State DB) : State DB :=
  if bool_decide (is_Some (disk s !! dir)) then s
  else set_disk (<[dir := Directory ∅]> (disk s)) s.


(** The files of the client directory: none when the directory is not
    there yet; undefined when a regular file has its name. *)
Definition client_directory (fs : FS) (dir : str) : option (gmap str bytes) :=
  match fs !! dir with
  | None => Some ∅
  | Some (Directory entries) => Some entries
  | Some (RegularFile _) => None
  end.

(** The fields of a chunk-save payload, as the handler reads them. *)
Definition content_size_of (payload : bytes) : Z :=
  le_uint (slice 0 4 (take 267 payload)).
Definition packet_number_of (payload : bytes) : Z :=
  le_uint (slice 8 10 (take 267 payload)).
Definition total_packets_of (payload : bytes) : Z :=
  le_uint (slice 10 12 (take 267 payload)).
Definition file_name_field (payload : bytes) : bytes :=
  slice 12 267 (take 267 payload).
Definition ciphertext_of (payload : bytes) : bytes :=
  slice 267 (267 + 1024) payload.

(** The plaintext of a packet: its ciphertext slice decrypted under the
    session key with the all-zero initialisation vector. *)
Definition plaintext_of `{!Library} (key payload : bytes) : bytes :=
  AES_CBC_decrypt key (replicate 16 x00) (ciphertext_of payload).

(** What the handler appends for a packet. *)
Definition appended `{!Library} (key payload : bytes) : bytes :=
  if packet_number_of payload =? total_packets_of payload
  then rstrip_zero_bytes (plaintext_of key payload)
  else plaintext_of key payload.

(** The client directory after a packet is stored: on the first packet
    of a transfer a stale file of that name is dropped, then the data is
    appended. *)
Definition stored (first : bool) (file_name : str) (data : bytes)
    (entries : gmap str bytes) : gmap str bytes :=
  let kept := if first then delete file_name entries else entries in
  <[file_name := default [] (kept !! file_name) ++ data]> kept.

(** The plaintexts of the packets of a file put together, the trailing
    zero bytes removed from the last one only. *)
Fixpoint reassembled `{!Library} (key : bytes) (payloads : list bytes)
  : bytes :=
  match payloads with
  | [] => []
  | [p] => rstrip_zero_bytes (plaintext_of key p)
  | p :: rest => plaintext_of key p ++ reassembled key rest
  end.

(** The packets of one file handed to the chunk-save handler in order. *)
Fixpoint save_all {DB} `{!Database DB} `{!Library} (payloads : list bytes)
  : Py DB unit :=
  match payloads with
  | [] => ret tt
  | p :: rest => handle_save_file p ;;; save_all rest
  end.

(** A well-formed packet of the file [file_name]: a complete sub-header
    with the given packet number and total, a file-name field that
    decodes to the name, and a ciphertext slice of whole blocks. *)
Definition chunk_of `{!Library} (file_name : str) (number total : Z)
    (payload : bytes) : Prop :=
  (267 ≤ length payload)%nat
  ∧ (∃ decoded, decode (file_name_field payload) = Some decoded
                ∧ strip_nul decoded = file_name)
  ∧ packet_number_of payload = number
  ∧ total_packets_of payload = total
  ∧ (length (ciphertext_of payload) mod 16 = 0)%nat.

(** What is left to read on the connection: the bytes of every run, and
    one for each event. *)
Definition pending (incoming : list recv_event) : nat :=
  foldr (λ e acc, match e with
                  | Data d => S (length d + acc)
                  | Reset => S acc
                  end) 0%nat incoming.

(** A method that has no loop never ends for lack of fuel. *)
Definition fuel_free {DB A} (m : Py DB A) : Prop :=
  ∀ s, (m s).1 ≠ OutOfFuel.

(** A method keeps an invariant of the state, however it ends. *)
Definition keeps {DB A} (P : State DB → Prop) (m : Py DB A) : Prop :=
  ∀ s, P s → P (m s).2.

(** A method sends at most one response, and none unless it returns. *)
Definition replies_once {DB A} (m : Py DB A) : Prop :=
  ∀ s, sent (m s).2 = sent s
       ∨ ∃ a x, (m s).1 = Ret a ∧ sent (m s).2 = sent s ++ [x].

(** ** Application faults *)

Section FaultVocabulary.
Context {DB : Type} `{!Database DB} `{!Library}.
Implicit Types s : State DB.






End FaultVocabulary.

(** ** Concrete sessions for the examples *)

Module Scenario.
Import Reference.

Definition id_A : bytes := take 16 (blob "A" ++ replicate 16 x00).
Definition id_B : bytes := take 16 (blob "B" ++ replicate 16 x00).

(** A registration of [alice] whose six payload bytes arrive in two
    runs, three with the header and three later. *)
Definition split_registration : State store :=
  init [Data (header id_A 1025 6 ++ blob "ali"); Data (blob "ce" ++ [x00])]
    empty_store ∅.

(** Two [CRC_MISMATCH] requests with empty payloads, under different
    identifiers. *)
Definition two_mismatches : State store :=
  init [Data (header id_A 1030 0); Data (header id_B 1030 0)] empty_store ∅.

(** One request with a code that no [case] names. *)
Definition unknown_request : State store :=
  init [Data (header id_A 7 2 ++ blob "hi")] empty_store ∅.

(** One [CRC_MISMATCH] request naming [f.txt], then the end of the
    stream. *)
Definition one_mismatch : State store :=
  init [Data (header id_A 1030 5 ++ blob "f.txt")] empty_store ∅.

(** The same registration of [alice] sent twice. *)
Definition two_registrations : State store :=
  init [Data (header id_A 1025 6 ++ blob "alice" ++ [x00]);
        Data (header id_A 1025 6 ++ blob "alice" ++ [x00])]
    empty_store ∅.

Definition id_alice : bytes := take 16 (blob "alice" ++ replicate 16 x00).

Definition alice_account : account :=
  {| account_id := id_alice; account_name := text "alice" ++ [0%N];
     public_key := None; wrapped_key := None; last_seen := 0; files := [] |}.

(** A session of [alice] after a login, with a 32-byte session key and
    a client directory that holds the listed files. *)
Definition logged_in (db : store) (entries : list (str * bytes))
  : State store :=
  set_client_id (Some id_alice)
    (set_name (Some (text "alice"))
       (set_aes_key (Some (replicate 32 x01))
          (init [] db {[ text "alice" := Directory (list_to_map entries) ]}))).

Definition serving : store :=
  {| online := true; accounts := [alice_account] |}.

Definition failing : store :=
  {| online := false; accounts := [alice_account] |}.

(** The partial file is alone in the directory, and the store is down. *)
Definition refused_record : State store :=
  logged_in failing [(text "f.txt", blob "partial")].

(** The partial file has a neighbour. *)
Definition kept_directory : State store :=
  logged_in serving [(text "f.txt", blob "partial"); (text "g.txt", blob "other")].

(** A packet whose ciphertext is five bytes long. *)
Definition odd_packet : bytes := packet 5 1 1 "f.txt" (blob "12345").

(** A well-formed packet sent to a session that has no name yet. *)
Definition nameless : State store := init [] empty_store ∅.

(** The state in which the second of the [two_registrations] reaches
    its handler. *)
Definition second_registration : State store :=
  (receive_request (iteration two_registrations).2).2.

Definition chunk_session : State store := logged_in serving [].

(** A file of 1028 bytes in two packets of 1024 ciphertext bytes each;
    the second chunk is padded with zero bytes. *)
Definition two_packets : list bytes :=
  [packet 1028 1 2 "f.txt" (replicate 1024 "a"%byte);
   packet 1028 2 2 "f.txt" (blob "0123" ++ replicate 1020 x00)].


(** One [CRC_MISMATCH] request whose one-byte payload is [0xff], which
    is not UTF-8. *)
Definition undecodable_mismatch : State store :=
  init [Data (header id_A 1030 1 ++ [xff])] empty_store ∅.


(** A public-key request whose blob starts as a DER encoding does. *)
Definition der_key : bytes := replicate 255 x00 ++ blob "0-key".

(** A login request of [alice], and the store after her key exchange. *)
Definition alice_payload : bytes := blob "alice" ++ [x00].

Definition keyed : store :=
  {| online := true;
     accounts := [{| account_id := id_alice;
                     account_name := text "alice" ++ [0%N];
                     public_key := Some (blob "0-key");
                     wrapped_key := None; last_seen := 0; files := [] |}] |}.

(** A fresh connection of [alice], identified by the header only. *)
Definition identified (db : store) : State store :=
  set_client_id (Some id_alice) (init [] db ∅).

(** A session of [alice] that is named but has neither a session key
    nor a client directory: the state after a registration. *)
Definition registered : State store :=
  set_name (Some (text "alice")) (identified serving).

(** A session of [alice] with a session key, where a regular file has
    the name of her directory. *)
Definition blocked : State store :=
  set_disk {[ text "alice" := RegularFile (blob "not a directory") ]}
    chunk_session.

(** A packet of one whole block. *)
Definition block_packet : bytes :=
  packet 16 1 2 "f.txt" (blob "0123456789abcdef").

(** Two requests that arrive in one run: a [CRC_MISMATCH] naming [f.txt]
    and the header of a request with an unknown code. *)
Definition pipelined : State store :=
  init [Data (header id_A 1030 5 ++ blob "f.txt" ++ header id_B 7 0)]
    empty_store ∅.

(** Eleven bytes, then the end of the stream. *)
Definition short_header : State store :=
  init [Data (blob "hello world")] empty_store ∅.


End Scenario.

(** * Properties *)

(** Running a method symbolically: the monad is unfolded and the state
    record is rebuilt field by field. *)
Ltac py_unfold :=
  unfold send, recv, py_decode, fspath, on_disk, change_disk, db_write,
    try_except, bind, ret, raise, out_of_fuel, gets, modify, lift in *.

Ltac py_step :=
  match goal with
  | |- context [match ?x with _ => _ end] =>
      lazymatch x with
      | context [match _ with _ => _ end] => fail
      | _ =>
          match type of x with
          | sumbool _ _ => destruct x
          | _ => let E := fresh "E" in destruct x eqn:E
          end; simpl in *; try congruence
      end
  end.


Lemma split_at_length n d got rest :
  split_at n d = (got, rest) →
  d = got ++ rest ∧ (Z.of_nat (length got) ≤ Z.max 0 n)%Z
  ∧ (rest ≠ [] → Z.of_nat (length got) = Z.max 0 n).
Proof.
  revert n got rest. induction d as [|b d IH]; intros n got rest; simpl.
  - intros [= <- <-]. split; [done|]. split; [simpl; lia | done].
  - destruct (Z.leb_spec n 0).
    + intros [= <- <-]. split; [done|]. simpl. lia.
    + destruct (split_at (n - 1) d) as [g r] eqn:E. intros [= <- <-].
      destruct (IH _ _ _ E) as (-> & Hle & Heq). split; [done|].
      simpl. split; [lia|]. intros Hr. specialize (Heq Hr). lia.
Qed.

Section Dispatcher.
Context {DB : Type} `{!Database DB} `{!RequestCode} `{!Library}.
Implicit Types s : State DB.

(** What the [try] statement of the loop does, by the first [recv]. *)
Lemma receive_request_unfold s :
  receive_request s =
    match socket_recv 23 (incoming s) with
    | (inl e, rest) => (Ret None, set_running false (set_incoming rest s))
    | (inr header, rest) =>
        if bool_decide (header = []) then
          (Ret None, set_running false (set_incoming rest s))
        else if negb (length header =? 23)%nat then
          (Ret None, set_running false (set_incoming rest s))
        else
          let cid := slice 0 16 header in
          let code := le_uint (slice 17 19 header) in
          let payload_size := le_uint (slice 19 23 header) in
          match socket_recv payload_size rest with
          | (inl e, rest') =>
              (Ret None,
               set_running false (set_incoming rest' (set_client_id (Some cid) s)))
          | (inr payload, rest') =>
              (Ret (Some (code, payload)),
               set_incoming rest' (set_client_id (Some cid) s))
          end
    end.
Proof.
  unfold receive_request. py_unfold.
  destruct (socket_recv 23 (incoming s)) as [[e|header] rest] eqn:E1; simpl.
  - assert (e = ConnectionResetError) as ->.
    { unfold socket_recv in E1. destruct (incoming s) as [|[d|] l]; try congruence.
      destruct (split_at 23 d); congruence. }
    reflexivity.
  - destruct (bool_decide (header = [])); simpl; [reflexivity|].
    unfold unpack_header.
    destruct (length header =? 23)%nat eqn:El; simpl; [|reflexivity].
    destruct (socket_recv _ rest) as [[e|payload] rest'] eqn:E2; simpl;
      [|reflexivity].
    assert (e = ConnectionResetError) as ->.
    { unfold socket_recv in E2. destruct rest as [|[d|] l]; try congruence.
      destruct (split_at _ d); congruence. }
    reflexivity.
Qed.

(** A request reaches the [match] only behind a header of exactly 23
    bytes, whose first sixteen are then the session's identifier. *)
Lemma receive_request_Some s code payload s' :
  receive_request s = (Ret (Some (code, payload)), s') →
  ∃ header rest rest',
    socket_recv 23 (incoming s) = (inr header, rest)
    ∧ length header = 23%nat
    ∧ code = le_uint (slice 17 19 header)
    ∧ socket_recv (le_uint (slice 19 23 header)) rest = (inr payload, rest')
    ∧ s' = set_incoming rest' (set_client_id (Some (slice 0 16 header)) s).
Proof.
  rewrite receive_request_unfold.
  destruct (socket_recv 23 (incoming s)) as [[e|header] rest]; [congruence|].
  destruct (bool_decide (header = [])); [congruence|].
  destruct (length header =? 23)%nat eqn:El; simpl; [|congruence].
  apply Nat.eqb_eq in El.
  destruct (socket_recv _ rest) as [[e|p] rest'] eqn:E2; simpl; [congruence|].
  intros [= <- <- <-]. eauto 10.
Qed.

(** An empty read, a short read and a reset end the method without a
    response. *)
Lemma receive_request_None s s' :
  receive_request s = (Ret None, s') →
  running s' = false ∧ sent s' = sent s.
Proof.
  rewrite receive_request_unfold.
  destruct (socket_recv 23 (incoming s)) as [[e|header] rest].
  { intros [= <-]. done. }
  destruct (bool_decide (header = [])). { intros [= <-]. done. }
  destruct (negb _). { intros [= <-]. done. }
  simpl. destruct (socket_recv _ rest) as [[e|p] rest']; [|congruence].
  intros [= <-]. done.
Qed.

Lemma receive_request_total s :
  ∃ r s', receive_request s = (Ret r, s').
Proof.
  rewrite receive_request_unfold.
  repeat (py_step; eauto).
Qed.

(** The bytes handed to the [match] are at most [payload_size] many;
    they fall short of it whenever the run of bytes at hand does. *)
Lemma receive_request_payload_length s code payload s' :
  receive_request s = (Ret (Some (code, payload)), s') →
  ∃ header rest,
    socket_recv 23 (incoming s) = (inr header, rest)
    ∧ (Z.of_nat (length payload) ≤ Z.max 0 (le_uint (slice 19 23 header)))%Z.
Proof.
  intros (header & rest & rest' & E1 & _ & _ & E2 & _)%receive_request_Some.
  exists header, rest. split; [done|].
  unfold socket_recv in E2. destruct rest as [|[d|] l].
  - injection E2 as <- <-. simpl. lia.
  - destruct (split_at _ d) as [g r] eqn:E. injection E2 as <- <-.
    by apply split_at_length in E as (_ & ? & _).
  - congruence.
Qed.

Lemma get_requests_stopped fuel s :
  running s = false → get_requests (S fuel) s = (Ret tt, s).
Proof. intros Hr. simpl. py_unfold. by rewrite Hr. Qed.

Lemma get_requests_turn fuel s :
  running s = true →
  get_requests (S fuel) s =
    match iteration s with
    | (Ret true, s') => get_requests fuel s'
    | (Ret false, s') => (Ret tt, s')
    | (Raise e, s') => (Raise e, s')
    | (OutOfFuel, s') => (OutOfFuel, s')
    end.
Proof.
  intros Hr. simpl. unfold bind at 1, gets. rewrite Hr.
  unfold bind at 1. destruct (iteration s) as [[[]|e|] s']; reflexivity.
Qed.

Lemma iteration_unfold s :
  iteration s =
    match receive_request s with
    | (Ret (Some (code, payload)), s1) =>
        match dispatch code payload s1 with
        | (Ret _, s2) => (Ret true, s2)
        | (Raise e, s2) => (Raise e, s2)
        | (OutOfFuel, s2) => (OutOfFuel, s2)
        end
    | (Ret None, s1) => (Ret false, s1)
    | (Raise e, s1) => (Raise e, s1)
    | (OutOfFuel, s1) => (OutOfFuel, s1)
    end.
Proof.
  unfold iteration, bind at 1.
  destruct (receive_request s) as [[[[code payload]|]|e|] s1]; try reflexivity.
Qed.

(** The default arm of the [match]. *)
Lemma dispatch_unknown code payload s :
  code ≠ REGISTRATION_REQUEST → code ≠ RECEIVE_PUBLIC_KEY →
  code ≠ LOGIN_REQUEST → code ≠ SAVE_FILE_REQUEST →
  code ≠ FILE_TRANSFER_SUCCESS → code ≠ CRC_MISMATCH →
  code ≠ FILE_TRANSFER_FAILED →
  dispatch code payload s =
    (Ret tt, set_running false (set_sent (sent s ++ [general_error]) s)).
Proof.
  intros. unfold dispatch.
  repeat (rewrite (proj2 (Z.eqb_neq _ _)) by assumption).
  reflexivity.
Qed.

(** The [CRC_MISMATCH] arm: the payload is decoded for the log line and
    nothing else happens. *)
Lemma dispatch_crc_mismatch code payload s :
  code ≠ REGISTRATION_REQUEST → code ≠ RECEIVE_PUBLIC_KEY →
  code ≠ LOGIN_REQUEST → code ≠ SAVE_FILE_REQUEST →
  code ≠ FILE_TRANSFER_SUCCESS → code = CRC_MISMATCH →
  dispatch code payload s =
    (match decode payload with
     | Some _ => Ret tt
     | None => Raise UnicodeDecodeError
     end, s).
Proof.
  intros. unfold dispatch.
  repeat (rewrite (proj2 (Z.eqb_neq _ _)) by assumption).
  rewrite (proj2 (Z.eqb_eq _ _)) by assumption.
  py_unfold. destruct (decode payload); reflexivity.
Qed.

End Dispatcher.

(** ** Frame lemmas: what a method cannot change *)

Section Frame.
Context {DB : Type} `{!Database DB} `{!RequestCode} `{!Library}.
Context {X : Type} (f : State DB → X).

Lemma preserves_ret {A} (a : A) : preserves f (ret a).
Proof. by intros s. Qed.

Lemma preserves_raise {A} e : preserves f (raise (A:=A) e).
Proof. by intros s. Qed.

Lemma preserves_gets {A} (g : State DB → A) : preserves f (gets g).
Proof. by intros s. Qed.

Lemma preserves_lift {A} (r : exn + A) : preserves f (lift r).
Proof. by destruct r; intros s. Qed.

Lemma preserves_modify g : (∀ s, f (g s) = f s) → preserves f (modify g).
Proof. intros Hg s. apply Hg. Qed.

Lemma preserves_bind {A B} (m : Py DB A) (k : A → Py DB B) :
  preserves f m → (∀ a, preserves f (k a)) → preserves f (bind m k).
Proof.
  intros Hm Hk s. unfold bind. specialize (Hm s).
  destruct (m s) as [[a|e|] s']; simpl in *; [|done..].
  by rewrite Hk.
Qed.

Lemma preserves_try_except {A} (body handler : Py DB A) classes :
  preserves f body → preserves f handler →
  preserves f (try_except body classes handler).
Proof.
  intros Hb Hh s. unfold try_except. specialize (Hb s).
  destruct (body s) as [[a|e|] s']; simpl in *; [done| |done].
  destruct (caught_by classes e); [by rewrite Hh | done].
Qed.

Lemma preserves_recv n :
  (∀ v s, f (set_incoming v s) = f s) → preserves f (recv n).
Proof.
  intros Hf s. unfold recv.
  destruct (socket_recv n (incoming s)) as [r rest]. apply Hf.
Qed.

End Frame.

(** Decomposes a frame goal along the structure of the method; the side
    conditions on setters are closed by computation. *)
Ltac frame :=
  repeat first
    [ apply preserves_ret | apply preserves_raise | apply preserves_gets
    | apply preserves_lift
    | apply preserves_modify; intros; reflexivity
    | apply preserves_recv; intros; reflexivity
    | apply preserves_try_except
    | apply preserves_bind; [|intros]
    | progress unfold send, py_decode, fspath, on_disk, change_disk, db_write
    | match goal with
      | |- preserves _ (match ?x with _ => _ end) => destruct x
      end ].

Section Identifier.
Context {DB : Type} `{!Database DB} `{!RequestCode} `{!Library}.
Implicit Types s : State DB.

Lemma generate_aes_key_client_id :
  preserves (DB:=DB) client_id generate_aes_key.
Proof. unfold generate_aes_key. frame. Qed.

Lemma handle_login_client_id payload :
  preserves (DB:=DB) client_id (handle_login payload).
Proof. unfold handle_login. frame. Qed.

Lemma handle_public_key_client_id payload :
  preserves (DB:=DB) client_id (handle_public_key payload).
Proof. unfold handle_public_key. frame. Qed.

Lemma handle_save_file_client_id payload :
  preserves (DB:=DB) client_id (handle_save_file payload).
Proof.
  unfold handle_save_file, save_file_suite, decrypt_data, handle_file_crc.
  frame.
Qed.

Lemma handle_transfer_success_client_id payload :
  preserves (DB:=DB) client_id (handle_transfer_success payload).
Proof. unfold handle_transfer_success. frame. Qed.

Lemma handle_transfer_failed_client_id payload :
  preserves (DB:=DB) client_id (handle_transfer_failed payload).
Proof. unfold handle_transfer_failed. frame. Qed.

(** The one handler that assigns the identifier: on a name the store
    reports absent, as soon as the derived text is converted and before
    the account is created. *)
Lemma handle_register_client_id payload s :
  client_id (handle_register payload s).2 =
    match client_exists (database s) payload, decode payload with
    | Some false, Some text =>
        match fromhex (string_to_uuid text) with
        | Some cid => Some cid
        | None => client_id s
        end
    | _, _ => client_id s
    end.
Proof.
  unfold handle_register. py_unfold.
  destruct (client_exists (database s) payload) as [[]|]; simpl; [| |done].
  - destruct (decode payload); done.
  - destruct (decode payload) as [text|]; simpl; [|done].
    destruct (fromhex (string_to_uuid text)) as [cid|]; simpl; [|done].
    destruct (register_client _ _ _) as [[] db']; done.
Qed.

End Identifier.

(** ** The dispatcher *)

Section DispatcherClaims.
Context {DB : Type} `{!Database DB} `{!RequestCode} `{!Library}.
Implicit Types s : State DB.

(** C5. A request whose code is none of the seven the [match] names
    gets exactly one generic-error response and clears [running],
    whatever the session state; the loop then returns at its next
    test, so a running session that receives such a request ends with
    that single response. *)
Theorem unknown_code_ends_session (code : Z) (payload : bytes) :
  code ≠ REGISTRATION_REQUEST → code ≠ RECEIVE_PUBLIC_KEY →
  code ≠ LOGIN_REQUEST → code ≠ SAVE_FILE_REQUEST →
  code ≠ FILE_TRANSFER_SUCCESS → code ≠ CRC_MISMATCH →
  code ≠ FILE_TRANSFER_FAILED →
  (∀ s, dispatch code payload s =
          (Ret tt, set_running false (set_sent (sent s ++ [general_error]) s)))
  ∧ (∀ fuel s s1,
       running s = true →
       receive_request s = (Ret (Some (code, payload)), s1) →
       get_requests (S (S fuel)) s =
         (Ret tt, set_running false (set_sent (sent s ++ [general_error]) s1))).
Proof.
  intros H1 H2 H3 H4 H5 H6 H7. split.
  - intros s. by apply dispatch_unknown.
  - intros fuel s s1 Hrun Hreq.
    rewrite get_requests_turn by done.
    rewrite iteration_unfold, Hreq, dispatch_unknown by done.
    rewrite get_requests_stopped by done.
    apply receive_request_Some in Hreq as (h & r & r' & _ & _ & _ & _ & ->).
    reflexivity.
Qed.

(** Handling [CRC_MISMATCH] leaves the whole state as it was and
    sends nothing; the request that carried it changed only the
    identifier (to the header's) and the unread input.  When the
    payload decodes, control returns to the loop test with [running]
    unchanged, so the loop reads the next request. *)
Lemma crc_mismatch_changes_nothing (code : Z) (payload : bytes) :
  code ≠ REGISTRATION_REQUEST → code ≠ RECEIVE_PUBLIC_KEY →
  code ≠ LOGIN_REQUEST → code ≠ SAVE_FILE_REQUEST →
  code ≠ FILE_TRANSFER_SUCCESS → code = CRC_MISMATCH →
  (∀ s, (dispatch code payload s).2 = s)
  ∧ (∀ fuel s s1,
       running s = true →
       receive_request s = (Ret (Some (code, payload)), s1) →
       (name s1 = name s ∧ aes_key s1 = aes_key s ∧ running s1 = running s
        ∧ received_packets s1 = received_packets s ∧ sent s1 = sent s
        ∧ database s1 = database s ∧ disk s1 = disk s
        ∧ ∃ header rest, socket_recv 23 (incoming s) = (inr header, rest)
                         ∧ client_id s1 = Some (slice 0 16 header))
       ∧ (is_Some (decode payload) →
          iteration s = (Ret true, s1)
          ∧ get_requests (S fuel) s = get_requests fuel s1)).
Proof.
  intros H1 H2 H3 H4 H5 H6. split.
  - intros s. by rewrite dispatch_crc_mismatch.
  - intros fuel s s1 Hrun Hreq. split.
    + apply receive_request_Some in Hreq
        as (h & r & r' & Hh & _ & _ & _ & ->).
      simpl. repeat split; eauto.
    + intros [text Htext].
      assert (iteration s = (Ret true, s1)) as Hit.
      { rewrite iteration_unfold, Hreq, dispatch_crc_mismatch by done.
        by rewrite Htext. }
      split; [done|]. rewrite get_requests_turn by done. by rewrite Hit.
Qed.

(** C4, as amended.  A new session has no identifier.  Parsing a
    23-byte header assigns the header's first sixteen bytes to it, for
    every request code; a read that does not yield 23 bytes leaves it.
    Of the arms of the [match] only registration assigns it, to the
    derived identifier, when the store reports the name absent and the
    derived text converts; every other arm leaves it. *)
Theorem client_id_assignments :
  (∀ connection (db : DB) fs, client_id (init connection db fs) = None)
  ∧ (∀ s, client_id (receive_request s).2 =
            match socket_recv 23 (incoming s) with
            | (inr header, _) =>
                if (length header =? 23)%nat then Some (slice 0 16 header)
                else client_id s
            | (inl _, _) => client_id s
            end)
  ∧ (∀ code payload s,
       client_id (dispatch code payload s).2 =
         if code =? REGISTRATION_REQUEST then
           match client_exists (database s) payload, decode payload with
           | Some false, Some text =>
               match fromhex (string_to_uuid text) with
               | Some cid => Some cid
               | None => client_id s
               end
           | _, _ => client_id s
           end
         else client_id s).
Proof.
  split; [done|]. split.
  - intros s. rewrite receive_request_unfold.
    destruct (socket_recv 23 (incoming s)) as [[e|header] rest]; [done|].
    destruct (bool_decide_reflect (header = [])) as [->|]; [done|].
    destruct (length header =? 23)%nat; simpl; [|done].
    by destruct (socket_recv _ rest) as [[e|p] rest'].
  - intros code payload s. unfold dispatch.
    destruct (code =? REGISTRATION_REQUEST);
      [apply handle_register_client_id|].
    destruct (code =? RECEIVE_PUBLIC_KEY);
      [apply handle_public_key_client_id|].
    destruct (code =? LOGIN_REQUEST); [apply handle_login_client_id|].
    destruct (code =? SAVE_FILE_REQUEST); [apply handle_save_file_client_id|].
    destruct (code =? FILE_TRANSFER_SUCCESS);
      [apply handle_transfer_success_client_id|].
    destruct (code =? CRC_MISMATCH).
    { py_unfold. by destruct (decode payload). }
    destruct (code =? FILE_TRANSFER_FAILED);
      [apply handle_transfer_failed_client_id|].
    done.
Qed.

End DispatcherClaims.

Section DispatcherExamples.
Import Reference Scenario.

(** The session of [unknown_request] ends with the one generic-error
    response. *)
Lemma unknown_code_ends_session_witness :
  get_requests 2 unknown_request =
    (Ret tt,
     set_running false
       (set_sent [general_error]
          (set_incoming [] (set_client_id (Some id_A) unknown_request)))).
Proof.
  refine (proj2 (unknown_code_ends_session 7 (blob "hi") _ _ _ _ _ _ _)
            0%nat unknown_request _ _ _);
    solve [ discriminate | reflexivity ].
Defined.

(** The session of [one_mismatch]: the request changes nothing but the
    identifier, and the loop goes on to read the end of the stream. *)
Lemma crc_mismatch_changes_nothing_witness :
  let s1 := set_incoming [] (set_client_id (Some id_A) one_mismatch) in
  (dispatch 1030 (blob "f.txt") s1).2 = s1
  ∧ sent s1 = [] ∧ running s1 = true
  ∧ iteration one_mismatch = (Ret true, s1)
  ∧ get_requests 2 one_mismatch = get_requests 1 s1.
Proof.
  pose proof (@crc_mismatch_changes_nothing store list_store sample_codes
                toy_library 1030 (blob "f.txt")
                ltac:(discriminate) ltac:(discriminate) ltac:(discriminate)
                ltac:(discriminate) ltac:(discriminate) eq_refl) as [Hd Hl].
  intros s1. split; [apply Hd|].
  destruct (Hl 1%nat one_mismatch s1 eq_refl eq_refl) as [_ Hgo].
  destruct (Hgo (ex_intro _ (text "f.txt") eq_refl)) as [Hit Hloop].
  repeat split; assumption.
Defined.

(** Counterexample to C4 as stated: two [CRC_MISMATCH] requests, neither
    a registration nor a login, assign the identifier twice, to two
    different values. *)
Lemma client_id_reassigned_by_headers :
  ∃ s1 s2,
    iteration two_mismatches = (Ret true, s1)
    ∧ iteration s1 = (Ret true, s2)
    ∧ client_id two_mismatches = None
    ∧ client_id s1 = Some id_A
    ∧ client_id s2 = Some id_B
    ∧ id_A ≠ id_B
    ∧ database s2 = database two_mismatches
    ∧ sent s2 = [].
Proof.
  eexists _, _. split; [vm_compute; reflexivity|].
  split; [vm_compute; reflexivity|].
  repeat split. intros Heq. vm_compute in Heq. discriminate Heq.
Qed.

(** C2, at the failing input: the header announces six payload bytes,
    three are at hand, and the registration handler is called with
    those three.  The account is created under the name cut short, and
    the rest of the payload is read as the next header. *)
Theorem short_payload_is_dispatched :
  le_uint (slice 19 23 (header id_A 1025 6)) = 6
  ∧ (receive_request split_registration).1 = Ret (Some (1025, blob "ali"))
  ∧ (let end_ := (get_requests 3 split_registration).2 in
     name end_ = Some (text "al")
     ∧ (account_name <$> accounts (database end_)) = [text "ali"]
     ∧ running end_ = false
     ∧ incoming end_ = []).
Proof. vm_compute. repeat split. Qed.

(** C8, at the failing input: the payload of the [CRC_MISMATCH]
    request is not UTF-8, the log line fails to decode it, and the
    exception ends [get_requests]; the state is as the claim says
    (nothing sent, [running] still set), but the loop does not go
    on. *)
Theorem crc_mismatch_undecodable_payload_raises :
  decode [xff] = None
  ∧ (receive_request undecodable_mismatch).1 = Ret (Some (1030, [xff]))
  ∧ (get_requests 2 undecodable_mismatch).1 = Raise UnicodeDecodeError
  ∧ sent (get_requests 2 undecodable_mismatch).2 = []
  ∧ running (get_requests 2 undecodable_mismatch).2 = true.
Proof. vm_compute. repeat split. Qed.

End DispatcherExamples.

(** ** Paths of the client directory *)

Lemma plain_inv c :
  plain c = true →
  c ≠ [] ∧ Forall (λ x, x ≠ sep) c.
Proof.
  unfold plain. rewrite !andb_true_iff, !negb_true_iff.
  intros [[[Hne _] _] Hall]. split.
  - by apply bool_decide_eq_false in Hne.
  - apply Forall_forall. intros x Hx.
    rewrite forallb_forall in Hall.
    specialize (Hall x (proj1 (list_elem_of_In _ _) Hx)).
    apply andb_true_iff in Hall as [Hs _].
    apply negb_true_iff, N.eqb_neq in Hs. done.
Qed.

Lemma split_sep_no_sep d :
  Forall (λ x, x ≠ sep) d → split_sep d = (d, None).
Proof.
  induction 1 as [|c d Hc _ IH]; simpl; [done|].
  apply N.eqb_neq in Hc. by rewrite Hc, IH.
Qed.

Lemma split_sep_app d f :
  Forall (λ x, x ≠ sep) d → split_sep (d ++ sep :: f) = (d, Some f).
Proof.
  induction 1 as [|c d Hc _ IH]; simpl; [done|].
  apply N.eqb_neq in Hc. by rewrite Hc, IH.
Qed.

Lemma resolve_plain d : plain d = true → resolve d = Some (AtTop d).
Proof.
  intros Hd. unfold resolve.
  destruct (plain_inv d Hd) as [_ Hall].
  by rewrite split_sep_no_sep, Hd.
Qed.

Lemma os_path_join_plain d f :
  plain d = true → plain f = true → os_path_join d f = d ++ sep :: f.
Proof.
  intros [Hd Hdall]%plain_inv [Hf Hfall]%plain_inv.
  unfold os_path_join. destruct f as [|c f]; [done|].
  apply Forall_cons in Hfall as [Hc _]. apply N.eqb_neq in Hc. rewrite Hc.
  destruct d as [|x d]; [done|].
  rewrite bool_decide_eq_false_2; [done|].
  intros Hlast. apply last_Some in Hlast as [l' Hl'].
  rewrite Hl' in Hdall. apply Forall_app in Hdall as [_ Hs].
  inversion Hs as [|? ? Hx _]. by apply Hx.
Qed.

Lemma resolve_join d f :
  plain d = true → plain f = true →
  resolve (os_path_join d f) = Some (Inside d f).
Proof.
  intros Hd Hf. rewrite os_path_join_plain by done. unfold resolve.
  destruct (plain_inv d Hd) as [_ Hall].
  by rewrite split_sep_app, Hd, Hf.
Qed.

Lemma listing_empty (entries : gmap str bytes) :
  bool_decide ((map_to_list entries).*1 = []) = bool_decide (entries = ∅).
Proof.
  apply bool_decide_ext. split.
  - intros Hnil. apply fmap_nil_inv in Hnil. by apply map_to_list_empty_iff.
  - intros ->. by rewrite map_to_list_empty.
Qed.

Section FileSystem.
Context (fs : FS) (d f : str) (entries : gmap str bytes).
Hypothesis plain_d : plain d = true.
Hypothesis plain_f : plain f = true.

Lemma os_path_exists_top :
  os_path_exists fs d = inr (bool_decide (is_Some (fs !! d))).
Proof. unfold os_path_exists, located. by rewrite resolve_plain. Qed.

Lemma os_makedirs_top :
  fs !! d = None → os_makedirs fs d = inr (<[d := Directory ∅]> fs).
Proof.
  intros Hd. unfold os_makedirs, located. by rewrite resolve_plain, Hd.
Qed.

Lemma os_listdir_top :
  fs !! d = Some (Directory entries) →
  os_listdir fs d = inr (map_to_list entries).*1.
Proof.
  intros Hd. unfold os_listdir, located. by rewrite resolve_plain, Hd.
Qed.

Lemma os_listdir_missing :
  fs !! d = None → os_listdir fs d = inl FileNotFoundError.
Proof.
  intros Hd. unfold os_listdir, located. by rewrite resolve_plain, Hd.
Qed.

Lemma os_rmdir_top :
  fs !! d = Some (Directory ∅) → os_rmdir fs d = inr (delete d fs).
Proof.
  intros Hd. unfold os_rmdir, located. by rewrite resolve_plain, Hd.
Qed.

Lemma os_path_exists_inside :
  fs !! d = Some (Directory entries) →
  os_path_exists fs (os_path_join d f)
  = inr (bool_decide (is_Some (entries !! f))).
Proof.
  intros Hd. unfold os_path_exists, located. by rewrite resolve_join, Hd.
Qed.

Lemma os_remove_inside old :
  fs !! d = Some (Directory entries) →
  entries !! f = Some old →
  os_remove fs (os_path_join d f)
  = inr (<[d := Directory (delete f entries)]> fs).
Proof.
  intros Hd Hf. unfold os_remove, located. by rewrite resolve_join, Hd, Hf.
Qed.

Lemma append_file_inside data :
  fs !! d = Some (Directory entries) →
  append_file fs (os_path_join d f) data
  = inr (<[d := Directory (<[f := default [] (entries !! f) ++ data]> entries)]> fs).
Proof.
  intros Hd. unfold append_file, located. by rewrite resolve_join, Hd.
Qed.

Lemma file_content_inside :
  fs !! d = Some (Directory entries) →
  file_content fs (os_path_join d f) = entries !! f.
Proof. intros Hd. unfold file_content. by rewrite resolve_join, Hd. Qed.

End FileSystem.

#[global] Arguments os_path_exists : simpl never.
#[global] Arguments os_makedirs : simpl never.
#[global] Arguments os_remove : simpl never.
#[global] Arguments os_listdir : simpl never.
#[global] Arguments os_rmdir : simpl never.
#[global] Arguments append_file : simpl never.
#[global] Arguments file_content : simpl never.
#[global] Arguments os_path_join : simpl never.
#[global] Arguments strip_nul : simpl never.
#[global] Arguments slice : simpl never.

(** The cleanup of the failure handler, as a function of the disk. *)
Lemma cleanup_steps (fs : FS) (d f : str) (entries : gmap str bytes) :
  plain d = true → plain f = true →
  fs !! d = Some (Directory entries) →
  ∃ fs1,
    (if bool_decide (is_Some (entries !! f))
     then os_remove fs (os_path_join d f) else inr fs) = inr fs1
    ∧ fs1 !! d = Some (Directory (delete f entries))
    ∧ (if bool_decide (delete f entries = ∅) then os_rmdir fs1 d else inr fs1)
      = inr (after_cleanup fs d f entries).
Proof.
  intros Hd Hf Hfs. unfold after_cleanup.
  destruct (entries !! f) as [old|] eqn:Hentry.
  - rewrite bool_decide_eq_true_2 by eauto.
    erewrite os_remove_inside by done.
    eexists. split; [done|]. rewrite lookup_insert_eq. split; [done|].
    destruct (bool_decide_reflect (delete f entries = ∅)) as [He|He]; [|done].
    rewrite os_rmdir_top; [|done|by rewrite lookup_insert_eq, He].
    by rewrite delete_insert_eq.
  - rewrite bool_decide_eq_false_2 by (intros [? ?]; congruence).
    exists fs. split; [done|]. rewrite (delete_id entries f) by done.
    split; [done|].
    destruct (bool_decide_reflect (entries = ∅)) as [He|He].
    + rewrite os_rmdir_top; [done|done|by rewrite Hfs, He].
    + by rewrite insert_id.
Qed.

(** ** Registration and the outcome of a transfer *)

Section Handlers.
Context {DB : Type} `{!Database DB} `{!RequestCode} `{!Library}.
Implicit Types s : State DB.

(** C6. A registration whose name the store reports as existing is
    answered with registration-failed and clears [running]; nothing
    else changes, so the store, and with it the identifier of the
    existing account, is as before. *)
Theorem existing_name_is_refused (payload : bytes) (decoded : str) s :
  client_exists (database s) payload = Some true →
  decode payload = Some decoded →
  handle_register payload s =
    (Ret tt, set_running false (set_sent (sent s ++ [failed_register]) s))
  ∧ database (handle_register payload s).2 = database s.
Proof.
  intros Hex Hdec. unfold handle_register. py_unfold.
  by rewrite Hex, Hdec.
Qed.

(** C3, as amended.  On a session with a name whose directory exists,
    for a payload that decodes to a plain file name, the failure
    handler deletes the partial file if it exists, removes the client
    directory exactly when nothing is left in it, and asks the store
    for a failed file record; if the store accepts, it sends the final
    confirmation and clears [running]; if the store refuses, it sends
    a generic error and leaves [running] as it was. *)
Theorem transfer_failed_outcome (payload : bytes) (decoded dir : str)
    (entries : gmap str bytes) s :
  decode payload = Some decoded →
  name s = Some dir →
  plain dir = true →
  plain (strip_nul decoded) = true →
  disk s !! dir = Some (Directory entries) →
  let file_name := strip_nul decoded in
  let file_path := os_path_join dir file_name in
  let cleaned := set_disk (after_cleanup (disk s) dir file_name entries) s in
  let '(ok, db') :=
    save_file (database s) (client_id s) file_name file_path false in
  handle_transfer_failed payload s =
    (Ret tt,
     if ok then
       set_running false
         (set_sent (sent s ++ [send_final_confirmation (client_id s)])
            (set_database db' cleaned))
     else set_sent (sent s ++ [general_error]) (set_database db' cleaned)).
Proof.
  intros Hdec Hname Hdir Hfile Hdisk file_name file_path cleaned.
  subst file_name file_path cleaned.
  destruct (save_file _ _ _ _ _) as [ok db'] eqn:Hsave.
  destruct (cleanup_steps _ _ _ _ Hdir Hfile Hdisk)
    as (fs1 & Hremove & Hfs1 & Hrmdir).
  destruct s as [inc out db cid run key nm rp fs dr].
  simpl in *. subst nm.
  unfold handle_transfer_failed. py_unfold. rewrite Hdec. simpl.
  rewrite (os_path_exists_inside _ _ _ entries) by done.
  destruct (bool_decide (is_Some (entries !! strip_nul decoded))); simpl.
  - rewrite Hremove. simpl.
    rewrite (os_listdir_top _ _ _ Hdir Hfs1). simpl.
    rewrite listing_empty.
    destruct (bool_decide (delete (strip_nul decoded) entries = ∅)); simpl.
    + rewrite Hrmdir. simpl. rewrite Hsave. by destruct ok.
    + injection Hrmdir as <-. rewrite Hsave. by destruct ok.
  - injection Hremove as <-.
    rewrite (os_listdir_top _ _ _ Hdir Hfs1). simpl.
    rewrite listing_empty.
    destruct (bool_decide (delete (strip_nul decoded) entries = ∅)); simpl.
    + rewrite Hrmdir. simpl. rewrite Hsave. by destruct ok.
    + injection Hrmdir as <-. rewrite Hsave. by destruct ok.
Qed.

End Handlers.

(** ** Running a method step by step *)

Section Steps.
Context {DB : Type} `{!Database DB} `{!RequestCode} `{!Library}.
Context {A B : Type} (k : A → Py DB B).
Implicit Types s : State DB.

Lemma run_ret a s : bind (ret a) k s = k a s.
Proof. reflexivity. Qed.

Lemma run_raise e s : bind (raise e) k s = (Raise e, s).
Proof. reflexivity. Qed.

Lemma run_gets (f : State DB → A) s : bind (gets f) k s = k (f s) s.
Proof. reflexivity. Qed.

Lemma run_lift (r : exn + A) a s : r = inr a → bind (lift r) k s = k a s.
Proof. by intros ->. Qed.

Lemma run_lift_raise (r : exn + A) e s :
  r = inl e → bind (lift r) k s = (Raise e, s).
Proof. by intros ->. Qed.

Lemma run_on_disk (f : FS → exn + A) a s :
  f (disk s) = inr a → bind (on_disk f) k s = k a s.
Proof. intros Hf. unfold on_disk, bind, gets. by rewrite Hf. Qed.

Lemma run_bind {C} (m : Py DB C) (h : C → Py DB A) s :
  bind (bind m h) k s = bind m (λ c, bind (h c) k) s.
Proof. unfold bind. by destruct (m s) as [[c|e|] s']. Qed.

End Steps.

Section UnitSteps.
Context {DB : Type} `{!Database DB} `{!RequestCode} `{!Library}.
Context {B : Type} (k : unit → Py DB B).
Implicit Types s : State DB.

Lemma run_modify g s : bind (modify g) k s = k tt (g s).
Proof. reflexivity. Qed.

Lemma run_send r s : bind (send r) k s = k tt (set_sent (sent s ++ [r]) s).
Proof. reflexivity. Qed.

Lemma set_disk_same s : set_disk (disk s) s = s.
Proof. by destruct s. Qed.

Lemma run_change_disk (f : FS → exn + FS) fs' s :
  f (disk s) = inr fs' → bind (change_disk f) k s = k tt (set_disk fs' s).
Proof. intros Hf. unfold change_disk, bind, gets, modify. by rewrite Hf. Qed.

Lemma run_change_disk_raise (f : FS → exn + FS) e s :
  f (disk s) = inl e → bind (change_disk f) k s = (Raise e, s).
Proof. intros Hf. unfold change_disk, bind, gets, modify. by rewrite Hf. Qed.

(** A guarded change of the disk, the guard decided either way. *)
Lemma run_guarded_change_disk (guard : bool) (f : FS → exn + FS) fs' s :
  (if guard then f (disk s) else inr (disk s)) = inr fs' →
  bind (if guard then change_disk f else ret tt) k s
  = k tt (set_disk fs' s).
Proof.
  destruct guard.
  - apply run_change_disk.
  - intros [= <-]. by rewrite set_disk_same.
Qed.

End UnitSteps.

Section Decrypt.
Context {DB : Type} `{!Database DB} `{!RequestCode} `{!Library}.
Context {B : Type} (k : bytes → Py DB B).
Implicit Types s : State DB.

Lemma run_py_decode data decoded {C} (h : str → Py DB C) s :
  decode data = Some decoded → bind (py_decode data) h s = h decoded s.
Proof. intros Hd. unfold py_decode. by rewrite Hd. Qed.

Lemma run_fspath p dir {C} (h : str → Py DB C) s :
  p = Some dir → bind (fspath p) h s = h dir s.
Proof. by intros ->. Qed.

Lemma run_fspath_none {C} (h : str → Py DB C) s :
  bind (fspath None) h s = (Raise TypeError, s).
Proof. reflexivity. Qed.

Lemma run_decrypt_data data key s :
  aes_key s = Some key → length key = 32%nat →
  (length data mod 16 = 0)%nat →
  bind (decrypt_data data) k s
  = k (AES_CBC_decrypt key (replicate 16 x00) data) s.
Proof.
  intros Hkey Hlen Hdata. unfold decrypt_data, bind, gets. cbv beta.
  rewrite Hkey, Hlen, Hdata. reflexivity.
Qed.

Lemma run_decrypt_data_odd data key s :
  aes_key s = Some key → length key = 32%nat →
  (length data mod 16 ≠ 0)%nat →
  bind (decrypt_data data) k s = (Raise ValueError, s).
Proof.
  intros Hkey Hlen Hdata. unfold decrypt_data, bind, gets. cbv beta.
  rewrite Hkey, Hlen. apply Nat.eqb_neq in Hdata. by rewrite Hdata.
Qed.

End Decrypt.

(** Projections of an updated state. *)
Ltac fields :=
  cbn [incoming sent database client_id running aes_key name received_packets
       disk draws set_incoming set_sent set_database set_client_id set_running
       set_aes_key set_name set_received_packets set_disk set_draws] in *.

Lemma unpack_save_header_take payload :
  (267 ≤ length payload)%nat →
  unpack_save_header (take 267 payload) =
    inr (le_uint (slice 0 4 (take 267 payload)),
         le_uint (slice 4 8 (take 267 payload)),
         le_uint (slice 8 10 (take 267 payload)),
         le_uint (slice 10 12 (take 267 payload)),
         slice 12 267 (take 267 payload)).
Proof.
  intros Hlen. unfold unpack_save_header.
  rewrite length_take, Nat.min_l by done. reflexivity.
Qed.

Lemma unpack_save_header_short payload :
  (length payload < 267)%nat →
  unpack_save_header (take 267 payload) = inl struct_error.
Proof.
  intros Hlen. unfold unpack_save_header.
  rewrite length_take, Nat.min_r by lia.
  destruct (Nat.eqb_spec (length payload) 267); [lia|done].
Qed.

#[global] Arguments unpack_save_header : simpl never.
#[global] Arguments caught_by : simpl never.
#[global] Arguments rstrip_zero_bytes : simpl never.

(** ** Storing a chunk *)

(** The file-system calls of the chunk-save suite, as functions of the
    disk: the directory is made if it is missing, a stale file is removed
    on the first packet, the data is appended. *)
Lemma store_chunk_steps (fs : FS) (d f : str) (entries : gmap str bytes)
    (first : bool) (data : bytes) :
  plain d = true → plain f = true →
  client_directory fs d = Some entries →
  ∃ there fs1 fs2,
    os_path_exists fs d = inr there
    ∧ (if negb there then os_makedirs fs d else inr fs) = inr fs1
    ∧ os_path_exists fs1 (os_path_join d f)
      = inr (bool_decide (is_Some (entries !! f)))
    ∧ (if first && bool_decide (is_Some (entries !! f))
       then os_remove fs1 (os_path_join d f) else inr fs1) = inr fs2
    ∧ append_file fs2 (os_path_join d f) data
      = inr (<[d := Directory (stored first f data entries)]> fs).
Proof.
  intros Hd Hf Hdir. unfold client_directory in Hdir.
  exists (bool_decide (is_Some (fs !! d))).
  assert (∃ fs1, (if negb (bool_decide (is_Some (fs !! d)))
                  then os_makedirs fs d else inr fs) = inr fs1
                 ∧ fs1 !! d = Some (Directory entries)
                 ∧ ∀ v, <[d := v]> fs1 = <[d := v]> fs)
    as (fs1 & Hmk & Hfs1 & Hins1).
  { destruct (fs !! d) as [[c|es]|] eqn:Hlook; [done| |].
    - injection Hdir as <-. rewrite bool_decide_eq_true_2 by eauto.
      by exists fs.
    - injection Hdir as <-.
      rewrite bool_decide_eq_false_2 by (intros [? ?]; congruence). simpl.
      rewrite os_makedirs_top by done. eexists. split; [done|].
      rewrite lookup_insert_eq. split; [done|].
      intros v. by rewrite insert_insert_eq. }
  exists fs1.
  assert (∃ fs2, (if first && bool_decide (is_Some (entries !! f))
                  then os_remove fs1 (os_path_join d f) else inr fs1) = inr fs2
                 ∧ fs2 !! d
                   = Some (Directory (if first then delete f entries else entries))
                 ∧ ∀ v, <[d := v]> fs2 = <[d := v]> fs)
    as (fs2 & Hrm & Hfs2 & Hins2).
  { destruct first; simpl.
    - destruct (entries !! f) as [old|] eqn:Hentry.
      + rewrite bool_decide_eq_true_2 by eauto.
        erewrite os_remove_inside by done. eexists. split; [done|].
        rewrite lookup_insert_eq. split; [done|].
        intros v. by rewrite insert_insert_eq.
      + rewrite bool_decide_eq_false_2 by (intros [? ?]; congruence).
        exists fs1. rewrite delete_id by done. done.
    - by exists fs1. }
  exists fs2. split; [by rewrite os_path_exists_top|]. split; [done|].
  split; [by apply os_path_exists_inside|]. split; [done|].
  erewrite append_file_inside by done. unfold stored. by rewrite Hins2.
Qed.

Section ChunkSave.
Context {DB : Type} `{!Database DB} `{!RequestCode} `{!Library}.
Implicit Types s : State DB.

(** The suite applies to the fields of the payload when the sub-header
    is complete. *)
Lemma save_file_suite_fields payload s :
  (267 ≤ length payload)%nat →
  save_file_suite payload s =
    (decoded <- py_decode (file_name_field payload) ;;
     let file_name := strip_nul decoded in
     own <- gets name ;;
     dir <- fspath own ;;
     let file_path := os_path_join dir file_name in
     there <- on_disk (λ fs, os_path_exists fs dir) ;;
     (if negb there then change_disk (λ fs, os_makedirs fs dir) else ret tt) ;;;
     decrypted_data <- decrypt_data (ciphertext_of payload) ;;
     let decrypted_data :=
       if packet_number_of payload =? total_packets_of payload
       then rstrip_zero_bytes decrypted_data else decrypted_data in
     count <- gets received_packets ;;
     (if count =? 0 then
        stale <- on_disk (λ fs, os_path_exists fs file_path) ;;
        if stale then change_disk (λ fs, os_remove fs file_path) else ret tt
      else ret tt) ;;;
     change_disk (λ fs, append_file fs file_path decrypted_data) ;;;
     modify (λ s, set_received_packets (received_packets s + 1) s) ;;;
     count' <- gets received_packets ;;
     if count' =? total_packets_of payload then
       modify (set_received_packets 0) ;;;
       handle_file_crc file_path file_name (content_size_of payload)
     else ret tt) s.
Proof.
  intros Hlen. unfold save_file_suite.
  rewrite (run_lift _ _ _ _ (unpack_save_header_take payload Hlen)).
  reflexivity.
Qed.

Lemma run_first_packet_cleanup {B} (k : unit → Py DB B) (first : bool)
    (path : str) (stale : bool) (fs2 : FS) s :
  os_path_exists (disk s) path = inr stale →
  (if first && stale then os_remove (disk s) path else inr (disk s))
  = inr fs2 →
  bind (if first then
          stale <- on_disk (λ fs, os_path_exists fs path) ;;
          if stale then change_disk (λ fs, os_remove fs path) else ret tt
        else ret tt) k s
  = k tt (set_disk fs2 s).
Proof.
  intros Hex Hrm. destruct first; simpl in Hrm.
  - rewrite run_bind, (run_on_disk _ _ stale) by done.
    by apply run_guarded_change_disk.
  - injection Hrm as <-. by rewrite run_ret, set_disk_same.
Qed.

Lemma handle_file_crc_run path file_name content_size content s :
  file_content (disk s) path = Some content →
  handle_file_crc path file_name content_size s =
    (Ret tt,
     set_sent (sent s ++ [send_file_crc (client_id s) content_size file_name
                            (crc_of_bytes content)]) s).
Proof.
  intros Hc. unfold handle_file_crc, file_crc, bind, gets. cbv beta.
  by rewrite Hc.
Qed.

(** One packet, stored without a fault. *)
Lemma save_file_suite_run payload decoded dir key entries s :
  (267 ≤ length payload)%nat →
  decode (file_name_field payload) = Some decoded →
  name s = Some dir →
  plain dir = true →
  plain (strip_nul decoded) = true →
  aes_key s = Some key →
  length key = 32%nat →
  (length (ciphertext_of payload) mod 16 = 0)%nat →
  client_directory (disk s) dir = Some entries →
  let file_name := strip_nul decoded in
  let data := appended key payload in
  let entries' := stored (received_packets s =? 0) file_name data entries in
  let s1 := set_disk (<[dir := Directory entries']> (disk s)) s in
  save_file_suite payload s =
    if received_packets s + 1 =? total_packets_of payload then
      (Ret tt,
       set_sent (sent s ++ [send_file_crc (client_id s)
                              (content_size_of payload) file_name
                              (crc_of_bytes (default [] (entries' !! file_name)))])
         (set_received_packets 0 s1))
    else (Ret tt, set_received_packets (received_packets s + 1) s1).
Proof.
  intros Hlen Hdec Hname Hdir Hfile Hkey Hklen Hblocks Hentries.
  intros file_name data entries' s1.
  destruct (store_chunk_steps (disk s) dir file_name entries
              (received_packets s =? 0) data Hdir Hfile Hentries)
    as (there & fs1 & fs2 & Hthere & Hmk & Hstale & Hrm & Happ).
  rewrite save_file_suite_fields by done.
  rewrite (run_py_decode _ decoded) by done.
  rewrite run_gets, (run_fspath _ dir) by done.
  rewrite (run_on_disk _ _ there) by done.
  rewrite (run_guarded_change_disk _ (negb there) _ fs1) by done.
  rewrite (run_decrypt_data _ _ key) by done.
  rewrite run_gets. fields.
  rewrite (run_first_packet_cleanup _ _ _ _ fs2) by done.
  fold file_name. fold (plaintext_of key payload).
  fold (appended key payload). fold data.
  erewrite run_change_disk by (fields; exact Happ).
  rewrite run_modify, run_gets. fields.
  fold entries'.
  destruct (received_packets s + 1 =? total_packets_of payload).
  - rewrite run_modify.
    erewrite handle_file_crc_run.
    2:{ fields. erewrite file_content_inside; [|done|done|].
        - unfold entries', stored. by rewrite lookup_insert_eq.
        - by rewrite lookup_insert_eq. }
    fields. unfold entries' at 2, stored. rewrite lookup_insert_eq.
    subst s1. by destruct s.
  - subst s1. by destruct s.
Qed.

Lemma handle_save_file_returns payload s s' :
  save_file_suite payload s = (Ret tt, s') →
  handle_save_file payload s = (Ret tt, s').
Proof. intros Hs. unfold handle_save_file, try_except. by rewrite Hs. Qed.

Lemma handle_save_file_uncaught payload e s s' :
  save_file_suite payload s = (Raise e, s') →
  caught_by [IOError; OSError; struct_error; FileNotFoundError] e = false →
  handle_save_file payload s = (Raise e, s').
Proof.
  intros Hs He. unfold handle_save_file, try_except. by rewrite Hs, He.
Qed.

End ChunkSave.

(** ** Exceptions that no [except] clause names *)

Section Escapes.
Context {DB : Type} `{!Database DB} `{!RequestCode} `{!Library}.
Implicit Types s : State DB.

(** The loop has no [try] around the [match]: what a handler raises
    ends [get_requests]. *)
Lemma raised_in_dispatch_escapes fuel s s1 s2 code payload e :
  running s = true →
  receive_request s = (Ret (Some (code, payload)), s1) →
  dispatch code payload s1 = (Raise e, s2) →
  get_requests (S fuel) s = (Raise e, s2).
Proof.
  intros Hrun Hreq Hd. rewrite get_requests_turn by done.
  by rewrite iteration_unfold, Hreq, Hd.
Qed.

Lemma save_file_suite_odd_ciphertext payload decoded dir key s :
  (267 ≤ length payload)%nat →
  (length (ciphertext_of payload) mod 16 ≠ 0)%nat →
  decode (file_name_field payload) = Some decoded →
  name s = Some dir →
  plain dir = true →
  aes_key s = Some key →
  length key = 32%nat →
  save_file_suite payload s = (Raise ValueError, with_directory dir s).
Proof.
  intros Hlen Hodd Hdec Hname Hdir Hkey Hklen.
  rewrite save_file_suite_fields by done.
  rewrite (run_py_decode _ decoded) by done.
  rewrite run_gets, (run_fspath _ dir) by done.
  rewrite (run_on_disk _ _ _ _ (os_path_exists_top (disk s) dir Hdir)).
  unfold with_directory.
  destruct (bool_decide_reflect (is_Some (disk s !! dir))) as [Hex|Hex].
  - simpl negb. cbv iota.
    rewrite run_ret. by rewrite (run_decrypt_data_odd _ _ key).
  - simpl negb. cbv iota.
    erewrite run_change_disk
      by (apply os_makedirs_top; [done | by apply eq_None_not_Some]).
    by rewrite (run_decrypt_data_odd _ _ key).
Qed.

(** C9. A chunk-save payload of at least 267 bytes whose ciphertext
    slice has a length that is not a multiple of 16 makes the
    decryption raise [ValueError], which the handler's [except] clause
    does not name: the handler ends with that exception, no response
    is sent and [running] is not cleared. *)
Theorem bad_ciphertext_length_escapes (payload : bytes) (decoded dir : str)
    (key : bytes) s :
  (267 ≤ length payload)%nat →
  (length (ciphertext_of payload) mod 16 ≠ 0)%nat →
  decode (file_name_field payload) = Some decoded →
  name s = Some dir →
  plain dir = true →
  aes_key s = Some key →
  length key = 32%nat →
  caught_by [IOError; OSError; struct_error; FileNotFoundError] ValueError
    = false
  ∧ handle_save_file payload s = (Raise ValueError, with_directory dir s)
  ∧ sent (handle_save_file payload s).2 = sent s
  ∧ running (handle_save_file payload s).2 = running s.
Proof.
  intros Hlen Hodd Hdec Hname Hdir Hkey Hklen. split; [done|].
  assert (handle_save_file payload s = (Raise ValueError, with_directory dir s))
    as Hrun.
  { apply handle_save_file_uncaught; [|done].
    by apply (save_file_suite_odd_ciphertext _ decoded _ key). }
  rewrite Hrun. split; [done|]. unfold with_directory.
  by destruct (bool_decide _).
Qed.

(** C10, as amended.  While the session has no name, a chunk-save
    request with a full sub-header and a decodable file name, and a success or a
    failure request with a decodable payload, end their handlers with
    [TypeError] at the joining of the path; no [except] clause names
    it, nothing is sent and nothing changes. *)
Theorem nameless_session_type_error s :
  name s = None →
  caught_by [IOError; OSError; struct_error; FileNotFoundError] TypeError
    = false
  ∧ (∀ payload decoded,
       (267 ≤ length payload)%nat →
       decode (file_name_field payload) = Some decoded →
       handle_save_file payload s = (Raise TypeError, s))
  ∧ (∀ payload decoded,
       decode payload = Some decoded →
       handle_transfer_success payload s = (Raise TypeError, s))
  ∧ (∀ payload decoded,
       decode payload = Some decoded →
       handle_transfer_failed payload s = (Raise TypeError, s)).
Proof.
  intros Hname. split; [done|]. repeat split.
  - intros payload decoded Hlen Hdec.
    apply handle_save_file_uncaught; [|done].
    rewrite save_file_suite_fields by done.
    rewrite (run_py_decode _ decoded) by done.
    by rewrite run_gets, Hname.
  - intros payload decoded Hdec. unfold handle_transfer_success.
    rewrite (run_py_decode _ decoded) by done.
    by rewrite !run_gets, Hname.
  - intros payload decoded Hdec. unfold handle_transfer_failed.
    rewrite (run_py_decode _ decoded) by done.
    by rewrite !run_gets, Hname.
Qed.

(** The other side of C10: a chunk-save payload shorter than the
    sub-header fails in [struct.unpack], which the handler does catch,
    whether or not the session has a name. *)
Lemma short_save_payload_is_answered payload s :
  (length payload < 267)%nat →
  handle_save_file payload s =
    (Ret tt, set_running false (set_sent (sent s ++ [general_error]) s)).
Proof.
  intros Hlen. unfold handle_save_file, save_file_suite, try_except.
  by rewrite (run_lift_raise _ _ _ _ (unpack_save_header_short payload Hlen)).
Qed.

(** A key blob that [RSA.importKey] refuses ends the key exchange with
    [ValueError]; neither caller has a [try]. *)
Lemma generate_aes_key_bad_blob blob_ s :
  get_public_key (database s) (client_id s) = Some blob_ →
  RSA_importKey blob_ = None →
  generate_aes_key s = (Raise ValueError, s).
Proof.
  intros Hget Himport. unfold generate_aes_key.
  by rewrite !run_gets, Hget, Himport.
Qed.

End Escapes.

(** ** Generic errors and the [running] flag *)


Section AnswersAndStops.
Context {DB : Type} `{!Database DB} `{!RequestCode} `{!Library}.
Implicit Types s : State DB.












Lemma missing_public_key s :
  get_public_key (database s) (client_id s) = None →
  generate_aes_key s = (Ret false, set_sent (sent s ++ [general_error]) s).
Proof. intros Hget. unfold generate_aes_key. by rewrite !run_gets, Hget. Qed.


End AnswersAndStops.

(** ** Reassembly of a file *)

Section Reassembly.
Context {DB : Type} `{!Database DB} `{!RequestCode} `{!Library}.
Context (dir file_name : str) (key : bytes).
Hypothesis plain_dir : plain dir = true.
Hypothesis plain_file_name : plain file_name = true.
Hypothesis key_length : length key = 32%nat.
Implicit Types s : State DB.

(** One well-formed packet: the handler returns, and the file holds
    what it held (nothing, on the first packet of a transfer) followed
    by the data of the packet. *)
Lemma handle_save_file_stores payload number total entries s :
  name s = Some dir →
  aes_key s = Some key →
  client_directory (disk s) dir = Some entries →
  chunk_of file_name number total payload →
  let old := if received_packets s =? 0 then []
             else default [] (entries !! file_name) in
  let data := if number =? total
              then rstrip_zero_bytes (plaintext_of key payload)
              else plaintext_of key payload in
  let entries' := stored (received_packets s =? 0) file_name data entries in
  let s1 := set_disk (<[dir := Directory entries']> (disk s)) s in
  entries' !! file_name = Some (old ++ data)
  ∧ file_content (<[dir := Directory entries']> (disk s)) (os_path_join dir file_name)
    = Some (old ++ data)
  ∧ handle_save_file payload s =
      if received_packets s + 1 =? total then
        (Ret tt,
         set_sent (sent s ++ [send_file_crc (client_id s)
                                (content_size_of payload) file_name
                                (crc_of_bytes (old ++ data))])
           (set_received_packets 0 s1))
      else (Ret tt, set_received_packets (received_packets s + 1) s1).
Proof.
  intros Hname Hkey Hentries (Hlen & (decoded & Hdec & Hstrip) & Hnum & Htot & Hblocks).
  intros old data entries' s1.
  assert (entries' !! file_name = Some (old ++ data)) as Hlook.
  { unfold entries', stored, old. rewrite lookup_insert_eq.
    destruct (received_packets s =? 0); [|done].
    by rewrite lookup_delete_eq. }
  split; [done|]. split.
  { erewrite file_content_inside; [done..|].
    by rewrite lookup_insert_eq. }
  pose proof (save_file_suite_run payload decoded dir key entries s
                Hlen Hdec Hname plain_dir) as Hrun.
  rewrite Hstrip in Hrun.
  specialize (Hrun plain_file_name Hkey key_length Hblocks Hentries).
  cbv zeta in Hrun. unfold appended in Hrun.
  rewrite Hnum, Htot in Hrun. fold data in Hrun. fold entries' in Hrun.
  rewrite Hlook in Hrun. simpl default in Hrun. fold s1 in Hrun.
  destruct (received_packets s + 1 =? total);
    by apply handle_save_file_returns.
Qed.

Lemma reassembled_cons p q rest :
  reassembled key (p :: q :: rest)
  = plaintext_of key p ++ reassembled key (q :: rest).
Proof. reflexivity. Qed.

(** The packets [j+1 .. j+n] of a transfer of [j+n] packets, from a
    state in which [j] packets have been stored. *)
Lemma save_all_run payloads : ∀ s (j : nat) acc entries,
  payloads ≠ [] →
  name s = Some dir →
  aes_key s = Some key →
  received_packets s = Z.of_nat j →
  client_directory (disk s) dir = Some entries →
  (if j is O then acc = [] else entries !! file_name = Some acc) →
  (∀ i p, payloads !! i = Some p →
          chunk_of file_name (Z.of_nat (j + i) + 1)
            (Z.of_nat (j + length payloads)) p) →
  ∃ s' final,
    last payloads = Some final
    ∧ save_all payloads s = (Ret tt, s')
    ∧ file_content (disk s') (os_path_join dir file_name)
      = Some (acc ++ reassembled key payloads)
    ∧ received_packets s' = 0
    ∧ running s' = running s
    ∧ sent s' = sent s ++ [send_file_crc (client_id s)
                             (content_size_of final) file_name
                             (crc_of_bytes (acc ++ reassembled key payloads))].
Proof.
  induction payloads as [|p rest IH]; [done|].
  intros s j acc entries _ Hname Hkey Hcount Hentries Hacc Hchunks.
  pose proof (Hchunks 0%nat p eq_refl) as Hp.
  rewrite Nat.add_0_r in Hp.
  destruct (handle_save_file_stores p _ _ entries s Hname Hkey Hentries Hp)
    as (Hlook & Hcontent & Hrun).
  assert ((if received_packets s =? 0 then []
           else default [] (entries !! file_name)) = acc) as Hold.
  { rewrite Hcount. destruct j as [|j]; [done|]. simpl. by rewrite Hacc. }
  rewrite Hold in Hlook, Hcontent, Hrun.
  rewrite Hcount in Hlook, Hcontent, Hrun.
  simpl save_all. unfold bind at 1.
  destruct rest as [|q rest].
  - (* the last packet *)
    simpl length in *.
    replace (Z.of_nat j + 1) with (Z.of_nat (j + 1)) in * by lia.
    rewrite Z.eqb_refl in Hlook, Hcontent, Hrun. rewrite Hrun.
    eexists _, p. split; [done|]. split; [reflexivity|].
    fields. cbn [reassembled]. repeat split; done.
  - (* a packet before the last *)
    assert ((Z.of_nat j + 1 =? Z.of_nat (j + length (p :: q :: rest))) = false)
      as Hmore by (apply Z.eqb_neq; simpl; lia).
    rewrite Hmore in Hlook, Hcontent, Hrun. rewrite Hrun.
    match goal with
    | |- context [save_all _ ?s1] =>
        destruct (IH s1 (S j) (acc ++ plaintext_of key p)
                    (stored (Z.of_nat j =? 0) file_name
                       (plaintext_of key p) entries))
          as (s' & final & Hlast & Hrest & Hfile & Hzero & Hrunning & Hsent)
    end; fields; try done.
    + lia.
    + unfold client_directory. by rewrite lookup_insert_eq.
    + intros i p' Hi. specialize (Hchunks (S i) p' Hi).
      replace (S j + i)%nat with (j + S i)%nat by lia.
      replace (S j + length (q :: rest))%nat
        with (j + length (p :: q :: rest))%nat by (simpl; lia).
      done.
    + exists s', final. split; [done|]. rewrite Hrest.
      rewrite reassembled_cons, app_assoc.
      repeat split; done.
Qed.


End Reassembly.

(** A payload that carries the whole of the fixed-size chunk has a
    ciphertext slice of 1024 bytes. *)
Lemma ciphertext_full_chunk payload :
  (267 + 1024 ≤ length payload)%nat →
  length (ciphertext_of payload) = 1024%nat.
Proof.
  intros Hlen. unfold ciphertext_of, slice.
  rewrite length_take, length_drop. lia.
Qed.

(** ** The handlers on concrete sessions *)

Section HandlerExamples.
Import Reference Scenario.

(** The second of two registrations of [alice]: the store reports the
    name, the handler refuses, and the account of the first
    registration keeps its identifier. *)
Lemma existing_name_is_refused_witness :
  let payload := blob "alice" ++ [x00] in
  client_exists (database second_registration) payload = Some true
  ∧ handle_register payload second_registration =
      (Ret tt,
       set_running false
         (set_sent [success_register (Some id_alice); failed_register]
            second_registration))
  ∧ (account_id <$> accounts (database (handle_register payload second_registration).2))
    = [id_alice].
Proof.
  intros payload.
  destruct (existing_name_is_refused payload (text "alice" ++ [0%N])
              second_registration) as [Hrun Hdb];
    [vm_compute; reflexivity..|].
  split; [vm_compute; reflexivity|]. split; [exact Hrun|].
  rewrite Hdb. vm_compute. reflexivity.
Defined.

(** The whole session of [two_registrations]. *)
Example two_registrations_session :
  sent (get_requests 3 two_registrations).2
  = [success_register (Some id_alice); failed_register].
Proof. vm_compute. reflexivity. Qed.

(** Counterexample to C3 as stated: the store refuses the record; the
    handler has deleted the file and the directory, yet nothing is
    persisted, a generic error is sent in place of the confirmation,
    and [running] stays set. *)
Lemma transfer_failed_without_record :
  ∃ s', handle_transfer_failed (blob "f.txt") refused_record = (Ret tt, s')
        ∧ sent s' = [general_error]
        ∧ running s' = true
        ∧ database s' = database refused_record
        ∧ disk s' = ∅.
Proof. eexists. split; [vm_compute; reflexivity|]. repeat split. Qed.

(** With a neighbour in the directory and a store that accepts: the
    partial file goes, the directory stays, the record is kept, the
    confirmation is sent and the session closes. *)
Lemma transfer_failed_outcome_witness :
  ∃ s', handle_transfer_failed (blob "f.txt") kept_directory = (Ret tt, s')
        ∧ sent s' = [send_final_confirmation (Some id_alice)]
        ∧ running s' = false
        ∧ disk s' = {[ text "alice" := Directory {[ text "g.txt" := blob "other" ]} ]}
        ∧ (files <$> accounts (database s'))
          = [[(text "f.txt", text "alice/f.txt", false)]].
Proof.
  pose proof (transfer_failed_outcome (blob "f.txt") (text "f.txt")
                (text "alice")
                (list_to_map [(text "f.txt", blob "partial");
                              (text "g.txt", blob "other")])
                kept_directory eq_refl eq_refl eq_refl eq_refl eq_refl)
    as Hrun.
  cbv zeta in Hrun.
  destruct (save_file _ _ _ _ _) as [ok db'] eqn:Hsave in Hrun.
  vm_compute in Hsave. injection Hsave as <- <-.
  eexists. split; [exact Hrun|]. vm_compute. repeat split.
Defined.

(** A packet with five bytes of ciphertext, sent to a session that has
    a name, a directory and a session key. *)
Lemma bad_ciphertext_length_escapes_witness :
  length (ciphertext_of odd_packet) = 5%nat
  ∧ handle_save_file odd_packet chunk_session
    = (Raise ValueError, chunk_session)
  ∧ sent (handle_save_file odd_packet chunk_session).2 = []
  ∧ running (handle_save_file odd_packet chunk_session).2 = true.
Proof.
  destruct (bad_ciphertext_length_escapes odd_packet
              (text "f.txt" ++ replicate 250 0%N) (text "alice")
              (replicate 32 x01) chunk_session)
    as (_ & Hrun & Hsent & Hrunning);
    [ vm_compute; lia | vm_compute; lia | reflexivity.. |].
  split; [reflexivity|]. split; [exact Hrun|]. split; assumption.
Defined.

(** The three requests on a session that has no name. *)
Lemma nameless_session_type_error_witness :
  handle_save_file odd_packet nameless = (Raise TypeError, nameless)
  ∧ handle_transfer_success (blob "f.txt") nameless
    = (Raise TypeError, nameless)
  ∧ handle_transfer_failed (blob "f.txt") nameless
    = (Raise TypeError, nameless).
Proof.
  destruct (nameless_session_type_error nameless eq_refl)
    as (_ & Hsave & Hsuccess & Hfailed).
  split; [|split].
  - apply (Hsave odd_packet (text "f.txt" ++ replicate 250 0%N));
      [vm_compute; lia | reflexivity].
  - by apply (Hsuccess (blob "f.txt") (text "f.txt")).
  - by apply (Hfailed (blob "f.txt") (text "f.txt")).
Defined.

(** Counterexample to C10 as stated: the same packet cut to 200 bytes
    makes [struct.unpack] fail, which the handler catches; the nameless
    session is answered with a generic error and closed. *)
Lemma short_save_payload_gets_general_error :
  handle_save_file (take 200 odd_packet) nameless
  = (Ret tt, set_running false (set_sent [general_error] nameless)).
Proof. vm_compute. reflexivity. Qed.



End HandlerExamples.

(** ** The loop ends *)

Lemma socket_recv_pending n incoming r rest :
  socket_recv n incoming = (r, rest) →
  (pending rest ≤ pending incoming)%nat
  ∧ (∀ d, r = inr d → d ≠ [] → (pending rest < pending incoming)%nat).
Proof.
  unfold socket_recv. destruct incoming as [|[d|] later].
  - intros [= <- <-]. split; [done|]. by intros d [= <-].
  - destruct (split_at n d) as [got rem] eqn:Hsplit. intros [= <- <-].
    apply split_at_length in Hsplit as (-> & _ & _).
    simpl. rewrite length_app. split.
    + destruct rem; simpl; lia.
    + intros d [= <-] Hgot. destruct got; [done|]. destruct rem; simpl; lia.
  - intros [= <- <-]. simpl. split; [lia|]. by intros d [=].
Qed.

Section Termination.
Context {DB : Type} `{!Database DB} `{!RequestCode} `{!Library}.
Implicit Types s : State DB.

Lemma fuel_free_ret {A} (a : A) : fuel_free (DB:=DB) (ret a).
Proof. by intros s. Qed.

Lemma fuel_free_raise {A} e : fuel_free (DB:=DB) (raise (A:=A) e).
Proof. by intros s. Qed.

Lemma fuel_free_gets {A} (g : State DB → A) : fuel_free (gets g).
Proof. by intros s. Qed.

Lemma fuel_free_modify g : fuel_free (DB:=DB) (modify g).
Proof. by intros s. Qed.

Lemma fuel_free_lift {A} (r : exn + A) : fuel_free (DB:=DB) (lift r).
Proof. by destruct r; intros s. Qed.

Lemma fuel_free_bind {A B} (m : Py DB A) (k : A → Py DB B) :
  fuel_free m → (∀ a, fuel_free (k a)) → fuel_free (bind m k).
Proof.
  intros Hm Hk s. unfold bind. specialize (Hm s).
  destruct (m s) as [[a|e|] s']; simpl in *; [apply Hk|done..].
Qed.

Lemma fuel_free_try_except {A} (body handler : Py DB A) classes :
  fuel_free body → fuel_free handler →
  fuel_free (try_except body classes handler).
Proof.
  intros Hb Hh s. unfold try_except. specialize (Hb s).
  destruct (body s) as [[a|e|] s']; simpl in *; [done| |done].
  destruct (caught_by classes e); [apply Hh|done].
Qed.

(** Decomposes a goal of [fuel_free] along the structure of the
    method. *)
Ltac fuel :=
  repeat first
    [ apply fuel_free_ret | apply fuel_free_raise | apply fuel_free_gets
    | apply fuel_free_lift | apply fuel_free_modify
    | apply fuel_free_try_except
    | apply fuel_free_bind; [|intros]
    | progress unfold send, py_decode, fspath, on_disk, change_disk, db_write
    | match goal with
      | |- fuel_free (match ?x with _ => _ end) => destruct x
      end ].

Lemma dispatch_fuel_free code payload :
  fuel_free (DB:=DB) (dispatch code payload).
Proof.
  unfold dispatch, handle_register, handle_public_key, handle_login,
    handle_save_file, handle_transfer_success, handle_transfer_failed,
    save_file_suite, generate_aes_key, decrypt_data, handle_file_crc.
  fuel.
Qed.

Lemma dispatch_incoming code payload :
  preserves (DB:=DB) incoming (dispatch code payload).
Proof.
  unfold dispatch, handle_register, handle_public_key, handle_login,
    handle_save_file, handle_transfer_success, handle_transfer_failed,
    save_file_suite, generate_aes_key, decrypt_data, handle_file_crc.
  frame.
Qed.

(** A request that reaches the [match] has used up its header. *)
Lemma receive_request_pending s code payload s' :
  receive_request s = (Ret (Some (code, payload)), s') →
  (pending (incoming s') < pending (incoming s))%nat.
Proof.
  intros (header & rest & rest' & Hh & Hlen & _ & Hp & ->)%receive_request_Some.
  simpl. apply socket_recv_pending in Hh as [_ Hlt].
  apply socket_recv_pending in Hp as [Hle _].
  assert (header ≠ []) as Hne by (by destruct header).
  specialize (Hlt header eq_refl Hne). lia.
Qed.

(** X24. The loop ends on any finite input.  With [pending] the number
    of bytes left to read plus the number of runs and resets they come
    in, [get_requests] returns or raises whenever the fuel exceeds
    [pending]: a turn that goes back to the loop test has read at least
    one byte.  The bound is on the fuel that suffices, not the number
    of turns taken. *)
Lemma get_requests_terminates fuel : ∀ s,
  (pending (incoming s) < fuel)%nat →
  (get_requests fuel s).1 ≠ OutOfFuel.
Proof.
  induction fuel as [|fuel IH]; intros s Hfuel; [lia|].
  destruct (running s) eqn:Hrun; [|by rewrite get_requests_stopped].
  rewrite get_requests_turn, iteration_unfold by done.
  destruct (receive_request_total s) as (r & s1 & Hreq). rewrite Hreq.
  destruct r as [[code payload]|]; [|done].
  pose proof (receive_request_pending _ _ _ _ Hreq) as Hless.
  pose proof (dispatch_fuel_free code payload s1) as Hfree.
  pose proof (dispatch_incoming code payload s1) as Hsame.
  destruct (dispatch code payload s1) as [[[]|e|] s2]; simpl in *; [|done..].
  apply IH. rewrite Hsame. lia.
Qed.

End Termination.

(** * Further properties of the handlers *)

Section StoreSteps.
Context {DB : Type} `{!Database DB} `{!RequestCode} `{!Library}.
Implicit Types s : State DB.

Lemma run_db_write {B} (k : bool → Py DB B) (f : DB → bool * DB) ok db' s :
  f (database s) = (ok, db') →
  bind (db_write f) k s = k ok (set_database db' s).
Proof.
  intros Hf. unfold db_write. rewrite run_bind, run_gets, Hf.
  by rewrite run_bind, run_modify, run_ret.
Qed.

(** The key exchange when the stored key imports and the wrapping
    succeeds: what is left is the store's answer to the wrapped key. *)
Lemma generate_aes_key_run blob_ rsa wrapped ok db' s :
  get_public_key (database s) (client_id s) = Some blob_ →
  RSA_importKey blob_ = Some rsa →
  PKCS1_OAEP_encrypt rsa (S (draws s)) (get_random_bytes (draws s) 32)
    = Some wrapped →
  add_aes_key (database s) (client_id s) wrapped = (ok, db') →
  generate_aes_key s =
    (Ret ok,
     let s1 := set_database db'
                 (set_draws (S (S (draws s)))
                    (set_aes_key (Some (get_random_bytes (draws s) 32)) s)) in
     if ok then s1 else set_sent (sent s ++ [general_error]) s1).
Proof.
  intros Hget Himport Hwrap Hadd. unfold generate_aes_key.
  rewrite !run_gets, Hget, Himport.
  rewrite run_gets, run_modify, run_modify, run_gets, run_modify. fields.
  rewrite Hwrap, run_gets. fields.
  erewrite run_db_write by (fields; exact Hadd).
  destruct s, ok; reflexivity.
Qed.

Lemma transfer_success_run payload decoded dir ok db' s :
  decode payload = Some decoded →
  name s = Some dir →
  save_file (database s) (client_id s) (strip_nul decoded)
    (os_path_join dir (strip_nul decoded)) true = (ok, db') →
  handle_transfer_success payload s =
    (Ret tt,
     if ok then
       set_running false
         (set_sent (sent s ++ [send_final_confirmation (client_id s)])
            (set_database db' s))
     else set_sent (sent s ++ [general_error]) (set_database db' s)).
Proof.
  intros Hdec Hname Hsave. unfold handle_transfer_success.
  rewrite (run_py_decode _ decoded) by done.
  rewrite !run_gets, (run_fspath _ dir) by done.
  erewrite run_db_write by exact Hsave.
  destruct s, ok; reflexivity.
Qed.

End StoreSteps.

(** ** Registration, login and the key exchange *)

Section Accounts.
Context {DB : Type} `{!Database DB} `{!RequestCode} `{!Library}.
Implicit Types s : State DB.

(** X1. A registration of a name the store reports absent, whose derived
    text converts and whose account the store creates, assigns the
    derived identifier (whatever the header carried), names the session
    with the decoded text less its last character, hands the store the
    full text, and answers registration-success with the derived
    identifier; [running] stays as it was. *)
Theorem registration_creates_account payload decoded cid db' s :
  client_exists (database s) payload = Some false →
  decode payload = Some decoded →
  fromhex (string_to_uuid decoded) = Some cid →
  register_client (database s) (Some cid) decoded = (true, db') →
  handle_register payload s =
    (Ret tt,
     set_sent (sent s ++ [success_register (Some cid)])
       (set_name (Some (drop_last decoded))
          (set_database db' (set_client_id (Some cid) s)))).
Proof.
  intros Hex Hdec Hhex Hreg. unfold handle_register.
  rewrite run_gets, Hex. cbv iota.
  rewrite (run_py_decode _ decoded), Hhex by done. cbv iota.
  rewrite run_modify, run_gets. fields.
  erewrite run_db_write by (fields; exact Hreg).
  cbn [negb]. rewrite run_modify, run_gets.
  by destruct s.
Qed.

(** X2. When the store refuses to create the account, the handler
    answers with a generic error and leaves the session unnamed and
    running, but the identifier has already been replaced by the derived
    one. *)
Theorem refused_creation_keeps_derived_identifier payload decoded cid db' s :
  client_exists (database s) payload = Some false →
  decode payload = Some decoded →
  fromhex (string_to_uuid decoded) = Some cid →
  register_client (database s) (Some cid) decoded = (false, db') →
  handle_register payload s =
    (Ret tt,
     set_sent (sent s ++ [general_error])
       (set_database db' (set_client_id (Some cid) s))).
Proof.
  intros Hex Hdec Hhex Hreg. unfold handle_register.
  rewrite run_gets, Hex. cbv iota.
  rewrite (run_py_decode _ decoded), Hhex by done. cbv iota.
  rewrite run_modify, run_gets. fields.
  erewrite run_db_write by (fields; exact Hreg).
  by destruct s.
Qed.

(** X3. A login that the store does not match is answered with
    login-failed under the identifier of the request header; nothing
    else changes, so the session stays open for another attempt. *)
Theorem login_mismatch_keeps_session_open payload decoded s :
  decode payload = Some decoded →
  client_exists_by_id (database s) (client_id s) decoded = Some false →
  handle_login payload s =
    (Ret tt, set_sent (sent s ++ [failed_login (client_id s)]) s).
Proof.
  intros Hdec Hex. unfold handle_login.
  rewrite run_gets, (run_py_decode _ decoded), run_gets, Hex by done.
  cbv iota. by rewrite run_gets.
Qed.

(** X4. A matched login names the session before the key exchange: when
    the account has no public key, the handler answers with a generic
    error and returns with the session named, still running and without
    a session key. *)
Theorem login_names_session_before_key_exchange payload decoded s :
  decode payload = Some decoded →
  client_exists_by_id (database s) (client_id s) decoded = Some true →
  get_public_key (database s) (client_id s) = None →
  handle_login payload s =
    (Ret tt,
     set_sent (sent s ++ [general_error])
       (set_name (Some (drop_last decoded)) s)).
Proof.
  intros Hdec Hex Hkey. unfold handle_login.
  rewrite run_gets, (run_py_decode _ decoded), run_gets, Hex by done.
  cbv iota. rewrite run_modify.
  unfold bind at 1. rewrite missing_public_key by (fields; done).
  by destruct s.
Qed.

End Accounts.

Section KeyExchange.
Context {DB : Type} `{!Database DB} `{!RequestCode} `{!Library}.
Implicit Types s : State DB.

(** X5. Once the stored public key imports, the key exchange replaces
    the session key by the fresh 32-byte draw however it ends (a refused
    wrapping, a refused store write, success); and it reports success
    only when the store has accepted the wrapped form of exactly that
    key. *)
Theorem key_exchange_replaces_session_key blob_ rsa s :
  get_public_key (database s) (client_id s) = Some blob_ →
  RSA_importKey blob_ = Some rsa →
  let key := get_random_bytes (draws s) 32 in
  aes_key (generate_aes_key s).2 = Some key
  ∧ ((generate_aes_key s).1 = Ret true →
     ∃ wrapped,
       PKCS1_OAEP_encrypt rsa (S (draws s)) key = Some wrapped
       ∧ add_aes_key (database s) (client_id s) wrapped
         = (true, database (generate_aes_key s).2)
       ∧ sent (generate_aes_key s).2 = sent s).
Proof.
  intros Hget Himport key.
  destruct (PKCS1_OAEP_encrypt rsa (S (draws s)) key) as [wrapped|] eqn:Hwrap.
  - destruct (add_aes_key (database s) (client_id s) wrapped) as [ok db']
      eqn:Hadd.
    rewrite (generate_aes_key_run blob_ rsa wrapped ok db') by done.
    split; [by destruct ok|].
    intros [= ->]. exists wrapped. by rewrite Hadd.
  - assert (generate_aes_key s =
              (Raise ValueError,
               set_draws (S (S (draws s))) (set_aes_key (Some key) s))) as ->.
    { unfold generate_aes_key. rewrite !run_gets, Hget, Himport.
      rewrite run_gets, run_modify, run_modify, run_gets, run_modify. fields.
      fold key. rewrite Hwrap. by destruct s. }
    split; [done|]. intros [=].
Qed.

(** X6. The public-key handler stores the bytes after the first 255 of
    the payload; when the store accepts them and the key exchange
    succeeds, the response is an AES-key delivery that carries the
    wrapped key the store returns, under the identifier of the session.
    The session stays open. *)
Theorem public_key_delivers_stored_key payload blob_ rsa wrapped stored
    db1 db2 s :
  add_public_key (database s) (client_id s) (drop 255 payload) = (true, db1) →
  get_public_key db1 (client_id s) = Some blob_ →
  RSA_importKey blob_ = Some rsa →
  PKCS1_OAEP_encrypt rsa (S (draws s)) (get_random_bytes (draws s) 32)
    = Some wrapped →
  add_aes_key db1 (client_id s) wrapped = (true, db2) →
  get_aes_key db2 (client_id s) = Some stored →
  handle_public_key payload s =
    (Ret tt,
     set_sent (sent s ++ [send_aes_key (client_id s) stored])
       (set_database db2
          (set_draws (S (S (draws s)))
             (set_aes_key (Some (get_random_bytes (draws s) 32)) s)))).
Proof.
  intros Hadd Hget Himport Hwrap Hstore Hstored. unfold handle_public_key.
  cbv zeta. rewrite run_gets.
  erewrite run_db_write by exact Hadd. cbn [negb].
  unfold bind at 1.
  rewrite (generate_aes_key_run blob_ rsa wrapped true db2) by (fields; done).
  cbv zeta. cbn [negb]. rewrite !run_gets. fields. rewrite Hstored.
  by destruct s.
Qed.

(** X7. A matched login whose key exchange succeeds names the session,
    answers login-success with the wrapped key the store returns, and
    then touches the last-seen time; the answer of that last store call
    is not looked at. *)
Theorem login_delivers_stored_key payload decoded blob_ rsa wrapped stored
    touched db1 db2 s :
  decode payload = Some decoded →
  client_exists_by_id (database s) (client_id s) decoded = Some true →
  get_public_key (database s) (client_id s) = Some blob_ →
  RSA_importKey blob_ = Some rsa →
  PKCS1_OAEP_encrypt rsa (S (draws s)) (get_random_bytes (draws s) 32)
    = Some wrapped →
  add_aes_key (database s) (client_id s) wrapped = (true, db1) →
  get_aes_key db1 (client_id s) = Some stored →
  update_last_seen db1 (client_id s) = (touched, db2) →
  handle_login payload s =
    (Ret tt,
     set_database db2
       (set_sent (sent s ++ [success_login (client_id s) stored])
          (set_draws (S (S (draws s)))
             (set_aes_key (Some (get_random_bytes (draws s) 32))
                (set_name (Some (drop_last decoded)) s))))).
Proof.
  intros Hdec Hex Hget Himport Hwrap Hstore Hstored Htouch.
  unfold handle_login.
  rewrite run_gets, (run_py_decode _ decoded), run_gets, Hex by done.
  cbv iota. rewrite run_modify. unfold bind at 1.
  rewrite (generate_aes_key_run blob_ rsa wrapped true db1) by (fields; done).
  cbv zeta. cbn [negb]. rewrite !run_gets. fields. rewrite Hstored.
  rewrite run_send. erewrite run_db_write by (fields; exact Htouch).
  by destruct s.
Qed.

(** X8. The success outcome on a named session whose payload decodes:
    the store is asked for a record of the file under the joined path,
    marked as succeeded; if it accepts, the final confirmation is sent
    and [running] is cleared; if it refuses, a generic error is sent and
    the session stays open.  The disk is not touched either way. *)
Theorem transfer_success_outcome payload decoded dir s :
  decode payload = Some decoded →
  name s = Some dir →
  let file_name := strip_nul decoded in
  let '(ok, db') :=
    save_file (database s) (client_id s) file_name
      (os_path_join dir file_name) true in
  handle_transfer_success payload s =
    (Ret tt,
     if ok then
       set_running false
         (set_sent (sent s ++ [send_final_confirmation (client_id s)])
            (set_database db' s))
     else set_sent (sent s ++ [general_error]) (set_database db' s))
  ∧ disk (handle_transfer_success payload s).2 = disk s.
Proof.
  intros Hdec Hname file_name.
  destruct (save_file _ _ _ _ _) as [ok db'] eqn:Hsave.
  rewrite (transfer_success_run payload decoded dir ok db') by done.
  split; [done|]. by destruct ok.
Qed.

(** X9. A file name that begins with [/] is not placed under the client
    directory: the path recorded for it is the name itself. *)
Theorem absolute_file_name_leaves_directory payload decoded rest dir db' s :
  decode payload = Some decoded →
  strip_nul decoded = sep :: rest →
  name s = Some dir →
  save_file (database s) (client_id s) (sep :: rest) (sep :: rest) true
    = (true, db') →
  os_path_join dir (strip_nul decoded) = sep :: rest
  ∧ handle_transfer_success payload s =
      (Ret tt,
       set_running false
         (set_sent (sent s ++ [send_final_confirmation (client_id s)])
            (set_database db' s))).
Proof.
  intros Hdec Hstrip Hname Hsave.
  assert (os_path_join dir (strip_nul decoded) = sep :: rest) as Hjoin.
  { rewrite Hstrip. unfold os_path_join. by rewrite N.eqb_refl. }
  split; [done|].
  rewrite (transfer_success_run payload decoded dir true db'); [done..|].
  by rewrite Hjoin, Hstrip.
Qed.

(** X10. Text that is not UTF-8 is met by no [except] clause: the login,
    success and failure handlers, the registration handler once the
    store has answered the lookup, and the chunk-save handler on its
    file-name field all end with [UnicodeDecodeError], send nothing and
    change nothing. *)
Theorem undecodable_text_escapes s :
  caught_by [IOError; OSError; struct_error; FileNotFoundError]
    UnicodeDecodeError = false
  ∧ (∀ payload, decode payload = None →
       handle_login payload s = (Raise UnicodeDecodeError, s)
       ∧ handle_transfer_success payload s = (Raise UnicodeDecodeError, s)
       ∧ handle_transfer_failed payload s = (Raise UnicodeDecodeError, s)
       ∧ (is_Some (client_exists (database s) payload) →
          handle_register payload s = (Raise UnicodeDecodeError, s)))
  ∧ (∀ payload,
       (267 ≤ length payload)%nat →
       decode (file_name_field payload) = None →
       handle_save_file payload s = (Raise UnicodeDecodeError, s)).
Proof.
  split; [done|]. split.
  - intros payload Hdec. repeat split.
    + unfold handle_login, py_decode. by rewrite run_gets, Hdec.
    + unfold handle_transfer_success, py_decode. by rewrite Hdec.
    + unfold handle_transfer_failed, py_decode. by rewrite Hdec.
    + intros [[] Hex]; unfold handle_register, py_decode;
        by rewrite run_gets, Hex, Hdec.
  - intros payload Hlen Hdec.
    apply handle_save_file_uncaught; [|done].
    rewrite save_file_suite_fields by done.
    unfold py_decode. by rewrite Hdec.
Qed.

End KeyExchange.

(** ** Faults and edges of the file handlers *)

Lemma os_path_exists_without_directory (fs : FS) (d f : str) :
  plain d = true → plain f = true →
  (∀ entries, fs !! d ≠ Some (Directory entries)) →
  os_path_exists fs (os_path_join d f) = inr false.
Proof.
  intros Hd Hf Hno. unfold os_path_exists, located. rewrite resolve_join by done.
  destruct (fs !! d) as [[c|entries]|] eqn:Hlook; [done| |done].
  by destruct (Hno entries).
Qed.

Lemma append_file_under_regular_file (fs : FS) (d f : str) c data :
  plain d = true → plain f = true →
  fs !! d = Some (RegularFile c) →
  append_file fs (os_path_join d f) data = inl NotADirectoryError.
Proof.
  intros Hd Hf Hlook. unfold append_file, located.
  by rewrite resolve_join, Hlook.
Qed.

Lemma rstrip_zero_bytes_cons b rest :
  rstrip_zero_bytes (b :: rest) =
    match rstrip_zero_bytes rest with
    | [] => if Byte.eqb b x00 then [] else [b]
    | kept => b :: kept
    end.
Proof. reflexivity. Qed.

Lemma rstrip_zero_bytes_zeros n : rstrip_zero_bytes (replicate n x00) = [].
Proof.
  induction n as [|n IH]; [done|].
  simpl replicate. by rewrite rstrip_zero_bytes_cons, IH.
Qed.

Lemma rstrip_zero_bytes_nil_inv data :
  rstrip_zero_bytes data = [] → data = replicate (length data) x00.
Proof.
  induction data as [|b rest IH]; [done|].
  rewrite rstrip_zero_bytes_cons.
  destruct (rstrip_zero_bytes rest) eqn:Hrest; [|done].
  destruct (Byte.eqb b x00) eqn:Hb; [|done].
  intros _. apply Byte.byte_dec_bl in Hb as ->. simpl. by rewrite <- IH.
Qed.

Section FileFaults.
Context {DB : Type} `{!Database DB} `{!RequestCode} `{!Library}.
Implicit Types s : State DB.

Lemma run_on_disk_raise {A B} (k : A → Py DB B) (f : FS → exn + A) e s :
  f (disk s) = inl e → bind (on_disk f) k s = (Raise e, s).
Proof. intros Hf. unfold on_disk, bind, gets. by rewrite Hf. Qed.

Lemma run_decrypt_data_no_key {B} (k : bytes → Py DB B) data s :
  aes_key s = None → bind (decrypt_data data) k s = (Raise TypeError, s).
Proof.
  intros Hkey. unfold decrypt_data, bind, gets. cbv beta. by rewrite Hkey.
Qed.

(** X11. A failure request on a named session whose client directory
    does not exist (no chunk was ever stored) ends with
    [FileNotFoundError] from the listing of the directory: no record is
    asked of the store, nothing is sent, and [running] stays set. *)
Theorem transfer_failed_without_directory payload decoded dir s :
  decode payload = Some decoded →
  name s = Some dir →
  plain dir = true →
  plain (strip_nul decoded) = true →
  disk s !! dir = None →
  handle_transfer_failed payload s = (Raise FileNotFoundError, s).
Proof.
  intros Hdec Hname Hdir Hfile Hdisk. unfold handle_transfer_failed.
  rewrite (run_py_decode _ decoded) by done.
  rewrite run_gets, (run_fspath _ dir) by done. cbv zeta.
  rewrite (run_on_disk _ _ false)
    by (apply os_path_exists_without_directory; [done..|congruence]).
  cbv iota. rewrite run_ret, run_gets, (run_fspath _ dir) by done.
  by rewrite (run_on_disk_raise _ _ FileNotFoundError)
    by (by apply os_listdir_missing).
Qed.

(** X12. A chunk sent to a named session that has no session key (a
    registration without a key exchange) ends with [TypeError] from the
    cipher, which the [except] clause does not name: nothing is sent and
    the packet is not counted, but the client directory has already
    been created. *)
Theorem chunk_without_session_key payload decoded dir s :
  (267 ≤ length payload)%nat →
  decode (file_name_field payload) = Some decoded →
  name s = Some dir →
  plain dir = true →
  aes_key s = None →
  handle_save_file payload s = (Raise TypeError, with_directory dir s)
  ∧ is_Some (disk (handle_save_file payload s).2 !! dir).
Proof.
  intros Hlen Hdec Hname Hdir Hkey.
  assert (handle_save_file payload s = (Raise TypeError, with_directory dir s))
    as ->.
  { apply handle_save_file_uncaught; [|done].
    rewrite save_file_suite_fields by done.
    rewrite (run_py_decode _ decoded) by done.
    rewrite run_gets, (run_fspath _ dir) by done.
    rewrite (run_on_disk _ _ _ _ (os_path_exists_top (disk s) dir Hdir)).
    unfold with_directory.
    destruct (bool_decide_reflect (is_Some (disk s !! dir))) as [Hex|Hex].
    - cbn [negb]. rewrite run_ret. by rewrite run_decrypt_data_no_key.
    - cbn [negb].
      erewrite run_change_disk
        by (apply os_makedirs_top; [done | by apply eq_None_not_Some]).
      by rewrite run_decrypt_data_no_key. }
  split; [done|]. unfold with_directory. simpl.
  destruct (bool_decide_reflect (is_Some (disk s !! dir))) as [Hex|Hex];
    [done|].
  simpl. rewrite lookup_insert_eq. eauto.
Qed.

(** X13. When a regular file has the name of the client directory, the
    opening of the chunk's file fails with [NotADirectoryError]; the
    handler catches it, answers with a generic error and clears
    [running].  The disk and the packet counter are as before. *)
Theorem chunk_under_regular_file payload decoded dir key content s :
  (267 ≤ length payload)%nat →
  decode (file_name_field payload) = Some decoded →
  name s = Some dir →
  plain dir = true →
  plain (strip_nul decoded) = true →
  aes_key s = Some key →
  length key = 32%nat →
  (length (ciphertext_of payload) mod 16 = 0)%nat →
  disk s !! dir = Some (RegularFile content) →
  handle_save_file payload s =
    (Ret tt, set_running false (set_sent (sent s ++ [general_error]) s)).
Proof.
  intros Hlen Hdec Hname Hdir Hfile Hkey Hklen Hblocks Hdisk.
  assert (save_file_suite payload s = (Raise NotADirectoryError, s)) as Hsuite.
  { rewrite save_file_suite_fields by done.
    rewrite (run_py_decode _ decoded) by done.
    rewrite run_gets, (run_fspath _ dir) by done.
    rewrite (run_on_disk _ _ _ _ (os_path_exists_top (disk s) dir Hdir)).
    rewrite bool_decide_eq_true_2 by eauto. cbn [negb].
    rewrite run_ret, (run_decrypt_data _ _ key), run_gets by done.
    rewrite (run_first_packet_cleanup _ _ _ false (disk s)).
    - rewrite set_disk_same.
      by rewrite (run_change_disk_raise _ _ NotADirectoryError)
        by (by eapply append_file_under_regular_file).
    - apply os_path_exists_without_directory; [done..|congruence].
    - by rewrite andb_false_r. }
  unfold handle_save_file, try_except. by rewrite Hsuite.
Qed.

End FileFaults.

Section Counting.
Context {DB : Type} `{!Database DB} `{!RequestCode} `{!Library}.
Implicit Types s : State DB.

(** X14. Completion is decided by the number of packets handled, not by
    the packet number: a well-formed packet is answered with the CRC
    report, and the counter returns to zero, exactly when the counter
    plus one equals the packet's total; otherwise nothing is sent and
    the counter goes up by one. *)
Theorem completion_is_counted payload number total dir file_name key entries s :
  plain dir = true →
  plain file_name = true →
  length key = 32%nat →
  name s = Some dir →
  aes_key s = Some key →
  client_directory (disk s) dir = Some entries →
  chunk_of file_name number total payload →
  (handle_save_file payload s).1 = Ret tt
  ∧ if received_packets s + 1 =? total then
      received_packets (handle_save_file payload s).2 = 0
      ∧ ∃ crc, sent (handle_save_file payload s).2
               = sent s ++ [send_file_crc (client_id s)
                              (content_size_of payload) file_name crc]
    else
      received_packets (handle_save_file payload s).2 = received_packets s + 1
      ∧ sent (handle_save_file payload s).2 = sent s.
Proof.
  intros Hdir Hfile Hklen Hname Hkey Hentries Hchunk.
  destruct (handle_save_file_stores dir file_name key Hdir Hfile Hklen
              payload number total entries s Hname Hkey Hentries Hchunk)
    as (_ & _ & Hrun).
  rewrite Hrun.
  destruct (received_packets s + 1 =? total); simpl; eauto.
Qed.

End Counting.

(** X15. Zero padding is removed whole, so it round-trips exactly for
    data that does not itself end in a zero byte: stripping does not
    depend on how many zero bytes were added, and it gives back the
    data if and only if the data does not end in a zero byte. *)
Theorem zero_padding_round_trip (data : bytes) (n : nat) :
  rstrip_zero_bytes (data ++ replicate n x00) = rstrip_zero_bytes data
  ∧ (rstrip_zero_bytes data = data ↔ last data ≠ Some x00).
Proof.
  split.
  - induction data as [|b rest IH]; simpl app.
    + apply rstrip_zero_bytes_zeros.
    + by rewrite !rstrip_zero_bytes_cons, IH.
  - induction data as [|b rest IH]; [done|].
    rewrite rstrip_zero_bytes_cons.
    destruct rest as [|c rest].
    + simpl. destruct (Byte.eqb b x00) eqn:Hb.
      * apply Byte.byte_dec_bl in Hb as ->. split; [done|]. by intros [].
      * split; [|done]. intros _ [= ->]. by rewrite (Byte.byte_dec_lb eq_refl) in Hb.
    + change (last (b :: c :: rest)) with (last (c :: rest)).
      rewrite <- IH.
      destruct (rstrip_zero_bytes (c :: rest)) as [|k kept] eqn:Hrest.
      * split; [destruct (Byte.eqb b x00); intros [=] | done].
      * split; [intros [=]; congruence | intros ->; done].
Qed.

(** ** What the handlers keep *)

Section Keeps.
Context {DB : Type} `{!Database DB} `{!RequestCode} `{!Library}.
Context (P : State DB → Prop).

Lemma keeps_ret {A} (a : A) : keeps P (ret a).
Proof. by intros s. Qed.

Lemma keeps_raise {A} e : keeps P (raise (A:=A) e).
Proof. by intros s. Qed.

Lemma keeps_out_of_fuel {A} : keeps P (out_of_fuel (A:=A)).
Proof. by intros s. Qed.

Lemma keeps_gets {A} (g : State DB → A) : keeps P (gets g).
Proof. by intros s. Qed.

Lemma keeps_lift {A} (r : exn + A) : keeps P (lift r).
Proof. by destruct r; intros s. Qed.

Lemma keeps_modify g : (∀ s, P s → P (g s)) → keeps P (modify g).
Proof. intros Hg s. apply Hg. Qed.

Lemma keeps_bind {A B} (m : Py DB A) (k : A → Py DB B) :
  keeps P m → (∀ a, keeps P (k a)) → keeps P (bind m k).
Proof.
  intros Hm Hk s Hs. unfold bind. specialize (Hm s Hs).
  destruct (m s) as [[a|e|] s']; simpl in *; [by apply Hk|done..].
Qed.

Lemma keeps_try_except {A} (body handler : Py DB A) classes :
  keeps P body → keeps P handler → keeps P (try_except body classes handler).
Proof.
  intros Hb Hh s Hs. unfold try_except. specialize (Hb s Hs).
  destruct (body s) as [[a|e|] s']; simpl in *; [done| |done].
  destruct (caught_by classes e); [by apply Hh|done].
Qed.

Lemma keeps_recv n : (∀ v s, P s → P (set_incoming v s)) → keeps P (recv n).
Proof.
  intros HP s Hs. unfold recv.
  destruct (socket_recv n (incoming s)) as [r rest]. by apply HP.
Qed.

End Keeps.

(** Decomposes a goal of [keeps] along the structure of the method; the
    side conditions on setters are arithmetic on the fields. *)
Ltac invariant_step :=
  lazymatch goal with
  | |- keeps _ (ret _) => apply keeps_ret
  | |- keeps _ (raise _) => apply keeps_raise
  | |- keeps _ out_of_fuel => apply keeps_out_of_fuel
  | |- keeps _ (gets _) => apply keeps_gets
  | |- keeps _ (lift _) => apply keeps_lift
  | |- keeps _ (modify _) =>
      apply keeps_modify;
      let Hs := fresh in intros ? Hs; first [exact Hs | simpl in *; lia]
  | |- keeps _ (recv _) =>
      apply keeps_recv; let Hs := fresh in intros ? ? Hs; exact Hs
  | |- keeps _ (try_except _ _ _) => apply keeps_try_except
  | |- keeps _ (bind _ _) => apply keeps_bind; [|intros]
  | |- keeps _ (send _) => unfold send
  | |- keeps _ (py_decode _) => unfold py_decode
  | |- keeps _ (fspath _) => unfold fspath
  | |- keeps _ (on_disk _) => unfold on_disk
  | |- keeps _ (change_disk _) => unfold change_disk
  | |- keeps _ (db_write _) => unfold db_write
  | |- keeps _ (match ?x with _ => _ end) => destruct x
  end.

Ltac invariant := repeat invariant_step.

Section Invariants.
Context {DB : Type} `{!Database DB} `{!RequestCode} `{!Library}.
Implicit Types s : State DB.

Lemma dispatch_counter code payload :
  keeps (DB:=DB) (λ s, 0 ≤ received_packets s) (dispatch code payload).
Proof.
  unfold dispatch, handle_register, handle_public_key, handle_login,
    handle_save_file, handle_transfer_success, handle_transfer_failed,
    save_file_suite, generate_aes_key, decrypt_data, handle_file_crc.
  invariant.
Qed.

(** X16. The packet counter is never negative: from a state in which it
    is not, no run of the request loop, however it ends, leaves it
    negative. *)
Theorem received_packets_never_negative fuel : ∀ s,
  0 ≤ received_packets s →
  0 ≤ received_packets (get_requests fuel s).2.
Proof.
  change (keeps (DB:=DB) (λ s, 0 ≤ received_packets s) (get_requests fuel)).
  induction fuel as [|fuel IH]; simpl get_requests; [invariant|].
  apply keeps_bind; [invariant|]. intros [|]; [|invariant].
  apply keeps_bind; [|intros [|]; [exact IH|invariant]].
  unfold iteration, receive_request.
  apply keeps_bind; [invariant|].
  intros [[code payload]|]; [|invariant].
  apply keeps_bind; [apply dispatch_counter|intros; invariant].
Qed.

(** X17. Which handler can change what.  No handler reads from the
    connection.  Only the chunk-save and failure handlers touch the
    disk; the chunk-save handler never writes to the store; only the
    login and public-key handlers change the session key or draw random
    bytes, and neither of them ever clears [running]; only registration
    and login name the session; only the chunk-save handler moves the
    packet counter; only registration changes the identifier. *)
Theorem handlers_footprint (h : handler) (payload : bytes) :
  let run := run_handler (DB:=DB) h payload in
  preserves incoming run
  ∧ match h with SaveFile | TransferFailed => True | _ => preserves disk run end
  ∧ match h with SaveFile => preserves database run | _ => True end
  ∧ match h with
    | Login | PublicKey => preserves running run
    | _ => preserves aes_key run ∧ preserves draws run
    end
  ∧ match h with Register | Login => True | _ => preserves name run end
  ∧ match h with SaveFile => True | _ => preserves received_packets run end
  ∧ match h with Register => True | _ => preserves client_id run end.
Proof.
  destruct h; simpl;
    unfold handle_register, handle_public_key, handle_login,
      handle_save_file, handle_transfer_success, handle_transfer_failed,
      save_file_suite, generate_aes_key, decrypt_data, handle_file_crc;
    repeat split; frame.
Qed.

End Invariants.

(** ** One response per request *)

Ltac one_reply :=
  first [ left; reflexivity
        | right; eexists _, _; split; [reflexivity|];
          simpl; rewrite <- ?app_assoc; reflexivity ].

Section Replies.
Context {DB : Type} `{!Database DB} `{!RequestCode} `{!Library}.
Implicit Types s : State DB.

Lemma replies_quiet {A} (m : Py DB A) : preserves sent m → replies_once m.
Proof. intros Hq s. left. apply Hq. Qed.

Lemma replies_bind {A B} (m : Py DB A) (k : A → Py DB B) :
  preserves sent m → (∀ a, replies_once (k a)) → replies_once (bind m k).
Proof.
  intros Hq Hk s. specialize (Hq s). unfold bind.
  destruct (m s) as [[a|e|] s']; simpl in *; [|by left..].
  rewrite <- Hq. apply Hk.
Qed.

Lemma replies_file_crc file_path file_name content_size :
  replies_once (DB:=DB) (handle_file_crc file_path file_name content_size).
Proof.
  intros s. destruct s as [inc out db cid run key nm rp fs dr].
  unfold handle_file_crc. py_unfold. simpl.
  destruct (file_crc fs file_path); simpl; one_reply.
Qed.

Lemma replies_try_except (body : Py DB unit) classes :
  replies_once body →
  replies_once
    (try_except body classes
       (send general_error ;;; modify (set_running false))).
Proof.
  intros Hb s. specialize (Hb s). unfold try_except.
  destruct (body s) as [[a|e|] s']; [done| |done].
  destruct (caught_by classes e); [|done].
  destruct Hb as [Hb|(a & x & [=] & _)]. simpl in *.
  right. exists tt, general_error. by rewrite Hb.
Qed.

Lemma handle_save_file_replies payload :
  replies_once (DB:=DB) (handle_save_file payload).
Proof.
  unfold handle_save_file. apply replies_try_except.
  unfold save_file_suite, decrypt_data.
  repeat first
    [ apply replies_file_crc
    | apply replies_bind; [solve [frame] | intros]
    | apply replies_quiet; solve [frame]
    | match goal with
      | |- replies_once (match ?x with _ => _ end) => destruct x
      end ].
Qed.

Lemma handle_register_replies payload :
  replies_once (DB:=DB) (handle_register payload).
Proof.
  intros s. destruct s as [inc out db cid run key nm rp fs dr].
  unfold handle_register. py_unfold. simpl.
  repeat py_step; one_reply.
Qed.

Lemma handle_login_replies payload :
  replies_once (DB:=DB) (handle_login payload).
Proof.
  intros s. destruct s as [inc out db cid run key nm rp fs dr].
  unfold handle_login, generate_aes_key. py_unfold. simpl.
  repeat py_step; one_reply.
Qed.

Lemma handle_public_key_replies payload :
  replies_once (DB:=DB) (handle_public_key payload).
Proof.
  intros s. destruct s as [inc out db cid run key nm rp fs dr].
  unfold handle_public_key, generate_aes_key. py_unfold. simpl.
  repeat py_step; one_reply.
Qed.

Lemma handle_transfer_success_replies payload :
  replies_once (DB:=DB) (handle_transfer_success payload).
Proof.
  intros s. destruct s as [inc out db cid run key nm rp fs dr].
  unfold handle_transfer_success. py_unfold. simpl.
  repeat py_step; one_reply.
Qed.

Lemma handle_transfer_failed_replies payload :
  replies_once (DB:=DB) (handle_transfer_failed payload).
Proof.
  intros s. destruct s as [inc out db cid run key nm rp fs dr].
  unfold handle_transfer_failed. py_unfold. simpl.
  repeat py_step; one_reply.
Qed.

(** X18. Every request is answered at most once, and a request whose
    handling ends with an exception has not been answered at all: the
    [match] either sends nothing, or returns having sent exactly one
    response. *)
Theorem one_response_per_request (code : Z) (payload : bytes) s :
  sent (dispatch code payload s).2 = sent s
  ∨ ∃ x, (dispatch code payload s).1 = Ret tt
         ∧ sent (dispatch code payload s).2 = sent s ++ [x].
Proof.
  assert (replies_once (DB:=DB) (dispatch code payload)) as Hd.
  { unfold dispatch.
    destruct (code =? REGISTRATION_REQUEST); [apply handle_register_replies|].
    destruct (code =? RECEIVE_PUBLIC_KEY); [apply handle_public_key_replies|].
    destruct (code =? LOGIN_REQUEST); [apply handle_login_replies|].
    destruct (code =? SAVE_FILE_REQUEST); [apply handle_save_file_replies|].
    destruct (code =? FILE_TRANSFER_SUCCESS);
      [apply handle_transfer_success_replies|].
    destruct (code =? CRC_MISMATCH); [apply replies_quiet; frame|].
    destruct (code =? FILE_TRANSFER_FAILED);
      [apply handle_transfer_failed_replies|].
    intros s0. right. by exists tt, general_error. }
  destruct (Hd s) as [Hq|([] & x & Hret & Hsent)]; [by left|].
  right. by exists x.
Qed.

End Replies.

(** ** Framing of requests *)


Lemma byte_to_Z_bound b : 0 ≤ byte_to_Z b < 256.
Proof.
  unfold byte_to_Z. pose proof (Byte.to_N_bounded b). lia.
Qed.

Lemma le_uint_bound (bs : bytes) :
  0 ≤ le_uint bs < 256 ^ Z.of_nat (length bs).
Proof.
  induction bs as [|b bs IH]; [simpl; lia|].
  simpl le_uint. simpl length.
  rewrite Nat2Z.inj_succ, Z.pow_succ_r by lia.
  pose proof (byte_to_Z_bound b). lia.
Qed.

Lemma le_uint_slice_bound i j (data : bytes) :
  0 ≤ le_uint (slice i j data) < 256 ^ Z.of_nat (j - i).
Proof.
  pose proof (le_uint_bound (slice i j data)) as [Hlo Hhi].
  split; [done|]. eapply Z.lt_le_trans; [exact Hhi|].
  apply Z.pow_le_mono_r; [lia|].
  unfold slice. rewrite length_take. lia.
Qed.

Section Framing.
Context {DB : Type} `{!Database DB} `{!RequestCode} `{!Library}.
Implicit Types s : State DB.

(** X19. A transport fault ends the session without a word: when the
    read of the header meets the end of the stream, a connection reset
    or a run of fewer than 23 bytes, [get_requests] returns with
    [running] cleared and nothing else changed but the input consumed:
    no response, no change of identifier, store or disk. *)
Theorem transport_fault_ends_silently fuel r rest s :
  running s = true →
  socket_recv 23 (incoming s) = (r, rest) →
  (∀ header, r = inr header → length header ≠ 23%nat) →
  get_requests (S fuel) s = (Ret tt, set_running false (set_incoming rest s)).
Proof.
  intros Hrun Hrecv Hshort.
  rewrite get_requests_turn, iteration_unfold, receive_request_unfold by done.
  rewrite Hrecv. destruct r as [e|header]; [done|].
  destruct (bool_decide (header = [])); [done|].
  specialize (Hshort header eq_refl). apply Nat.eqb_neq in Hshort.
  by rewrite Hshort.
Qed.


(** X21. The fields read from the wire are bounded by their width: a
    request reaches the [match] with a code below 2^16 and a payload
    shorter than 2^32 bytes, and the packet number, the total and the
    content size of a chunk's sub-header are below 2^16, 2^16 and
    2^32. *)
Theorem wire_fields_are_bounded :
  (∀ s code payload s',
     receive_request s = (Ret (Some (code, payload)), s') →
     0 ≤ code < 65536 ∧ Z.of_nat (length payload) < 4294967296)
  ∧ (∀ payload,
       0 ≤ packet_number_of payload < 65536
       ∧ 0 ≤ total_packets_of payload < 65536
       ∧ 0 ≤ content_size_of payload < 4294967296).
Proof.
  split.
  - intros s code payload s' Hreq.
    destruct (receive_request_payload_length _ _ _ _ Hreq)
      as (header & rest & _ & Hle).
    apply receive_request_Some in Hreq
      as (header' & _ & _ & _ & _ & -> & _ & _).
    split; [apply (le_uint_slice_bound 17 19)|].
    pose proof (le_uint_slice_bound 19 23 header) as Hsize.
    change (256 ^ Z.of_nat (23 - 19)) with 4294967296 in Hsize. lia.
  - intros payload. unfold packet_number_of, total_packets_of, content_size_of.
    split; [apply (le_uint_slice_bound 8 10)|].
    split; [apply (le_uint_slice_bound 10 12)|apply (le_uint_slice_bound 0 4)].
Qed.

(** X22. Once a handler has cleared [running], the loop reads nothing
    more: [get_requests] returns right after that request, and the
    bytes that were still unread when the handler was called are
    unread. *)
Theorem cleared_running_stops_reading fuel code payload s s1 s2 :
  running s = true →
  receive_request s = (Ret (Some (code, payload)), s1) →
  dispatch code payload s1 = (Ret tt, s2) →
  running s2 = false →
  get_requests (S (S fuel)) s = (Ret tt, s2)
  ∧ incoming s2 = incoming s1.
Proof.
  intros Hrun Hreq Hd Hstop. split.
  - rewrite get_requests_turn, iteration_unfold, Hreq, Hd by done.
    by apply get_requests_stopped.
  - pose proof (dispatch_incoming code payload s1) as Hsame.
    by rewrite Hd in Hsame.
Qed.

End Framing.

(** ** A file sent again *)

Lemma file_content_inside_inv (fs : FS) (d f : str) content :
  plain d = true → plain f = true →
  file_content fs (os_path_join d f) = Some content →
  ∃ entries, client_directory fs d = Some entries.
Proof.
  intros Hd Hf. unfold file_content, client_directory.
  rewrite resolve_join by done.
  destruct (fs !! d) as [[c|entries]|]; [done| |done]. eauto.
Qed.

Section Retransmission.
Context {DB : Type} `{!Database DB} `{!RequestCode} `{!Library}.
Implicit Types s : State DB.

Lemma save_all_session payloads :
  preserves (DB:=DB) name (save_all payloads)
  ∧ preserves (DB:=DB) aes_key (save_all payloads)
  ∧ preserves (DB:=DB) client_id (save_all payloads).
Proof.
  induction payloads as [|p rest (IHn & IHk & IHc)]; simpl save_all.
  - repeat split; apply preserves_ret.
  - repeat split; (apply preserves_bind; [|done]);
      unfold handle_save_file, save_file_suite, decrypt_data, handle_file_crc;
      frame.
Qed.

(** X23. Sending the same file again after it was completed (the retry
    that follows a CRC mismatch) gives the same file and the same
    digest: the first packet of the second round finds the counter at
    zero, drops the file of the first round, and the reassembly starts
    over. *)
Theorem retransmission_reproduces_file dir file_name key payloads entries s :
  plain dir = true →
  plain file_name = true →
  length key = 32%nat →
  payloads ≠ [] →
  name s = Some dir →
  aes_key s = Some key →
  received_packets s = 0 →
  client_directory (disk s) dir = Some entries →
  (∀ i p, payloads !! i = Some p →
          chunk_of file_name (Z.of_nat i + 1) (Z.of_nat (length payloads)) p) →
  ∃ s1 s2 final,
    last payloads = Some final
    ∧ save_all payloads s = (Ret tt, s1)
    ∧ save_all payloads s1 = (Ret tt, s2)
    ∧ file_content (disk s1) (os_path_join dir file_name)
      = Some (reassembled key payloads)
    ∧ file_content (disk s2) (os_path_join dir file_name)
      = Some (reassembled key payloads)
    ∧ let report := send_file_crc (client_id s) (content_size_of final)
                      file_name (crc_of_bytes (reassembled key payloads)) in
      sent s2 = sent s ++ [report; report].
Proof.
  intros Hdir Hfile Hklen Hne Hname Hkey Hcount Hentries Hchunks.
  destruct (save_all_run dir file_name key Hdir Hfile Hklen payloads
              s 0%nat [] entries)
    as (s1 & final & Hlast & Hrun1 & Hfile1 & Hcount1 & _ & Hsent1); try done.
  destruct (save_all_session payloads) as (Hn & Hk & Hc).
  specialize (Hn s). specialize (Hk s). specialize (Hc s).
  rewrite Hrun1 in Hn, Hk, Hc. simpl in Hn, Hk, Hc.
  destruct (file_content_inside_inv _ _ _ _ Hdir Hfile Hfile1)
    as (entries1 & Hentries1).
  destruct (save_all_run dir file_name key Hdir Hfile Hklen payloads
              s1 0%nat [] entries1)
    as (s2 & final' & Hlast' & Hrun2 & Hfile2 & _ & _ & Hsent2);
    try done; try congruence.
  exists s1, s2, final. rewrite Hlast in Hlast'. injection Hlast' as <-.
  repeat split; try done.
  simpl. rewrite Hsent2, Hsent1, Hc, <- app_assoc. reflexivity.
Qed.

End Retransmission.

(** ** Faults and their answers *)

Section Faults.
Context {DB : Type} `{!Database DB} `{!RequestCode} `{!Library}.
Implicit Types s : State DB.





End Faults.

(** ** The further properties on concrete sessions *)

Section FurtherExamples.
Import Reference Scenario.

Lemma registration_creates_account_witness :
  handle_register alice_payload nameless =
    (Ret tt,
     set_sent [success_register (Some id_alice)]
       (set_name (Some (text "alice"))
          (set_database serving (set_client_id (Some id_alice) nameless)))).
Proof.
  apply (registration_creates_account alice_payload (text "alice" ++ [0%N])
           id_alice serving nameless);
    vm_compute; reflexivity.
Defined.

Lemma login_mismatch_keeps_session_open_witness :
  handle_login alice_payload (identified empty_store) =
    (Ret tt,
     set_sent [failed_login (Some id_alice)] (identified empty_store)).
Proof.
  apply (login_mismatch_keeps_session_open alice_payload
           (text "alice" ++ [0%N]) (identified empty_store));
    vm_compute; reflexivity.
Defined.

Lemma login_names_session_before_key_exchange_witness :
  handle_login alice_payload (identified serving) =
    (Ret tt,
     set_sent [general_error]
       (set_name (Some (text "alice")) (identified serving))).
Proof.
  apply (login_names_session_before_key_exchange alice_payload
           (text "alice" ++ [0%N]) (identified serving));
    vm_compute; reflexivity.
Defined.

Lemma key_exchange_replaces_session_key_witness :
  aes_key (generate_aes_key (identified keyed)).2 = Some (replicate 32 x00)
  ∧ (generate_aes_key (identified keyed)).1 = Ret true.
Proof.
  destruct (@key_exchange_replaces_session_key store list_store toy_library
              (blob "0-key") (blob "0-key") (identified keyed)) as [Hkey _];
    [vm_compute; reflexivity..|].
  split; [exact Hkey | vm_compute; reflexivity].
Defined.

Lemma public_key_delivers_stored_key_witness :
  ∃ s', handle_public_key der_key (identified serving) = (Ret tt, s')
        ∧ sent s' = [send_aes_key (Some id_alice)
                       (blob "0-key" ++ replicate 32 x00)]
        ∧ aes_key s' = Some (replicate 32 x00)
        ∧ running s' = true.
Proof.
  eexists. split.
  - apply (@public_key_delivers_stored_key store list_store toy_library
             der_key (blob "0-key")
             (blob "0-key") (blob "0-key" ++ replicate 32 x00)
             (blob "0-key" ++ replicate 32 x00)
             keyed
             (add_aes_key keyed (Some id_alice)
                (blob "0-key" ++ replicate 32 x00)).2
             (identified serving));
      vm_compute; reflexivity.
  - vm_compute. repeat split.
Defined.

Lemma login_delivers_stored_key_witness :
  ∃ s', handle_login alice_payload (identified keyed) = (Ret tt, s')
        ∧ sent s' = [success_login (Some id_alice)
                       (blob "0-key" ++ replicate 32 x00)]
        ∧ name s' = Some (text "alice")
        ∧ (last_seen <$> accounts (database s')) = [1%nat].
Proof.
  eexists. split.
  - apply (@login_delivers_stored_key store list_store toy_library
             alice_payload (text "alice" ++ [0%N])
             (blob "0-key") (blob "0-key") (blob "0-key" ++ replicate 32 x00)
             (blob "0-key" ++ replicate 32 x00) true
             (add_aes_key keyed (Some id_alice)
                (blob "0-key" ++ replicate 32 x00)).2
             (update_last_seen
                (add_aes_key keyed (Some id_alice)
                   (blob "0-key" ++ replicate 32 x00)).2 (Some id_alice)).2
             (identified keyed));
      vm_compute; reflexivity.
  - vm_compute. repeat split.
Defined.

Lemma transfer_success_outcome_witness :
  ∃ s', handle_transfer_success (blob "f.txt") kept_directory = (Ret tt, s')
        ∧ sent s' = [send_final_confirmation (Some id_alice)]
        ∧ running s' = false
        ∧ disk s' = disk kept_directory
        ∧ (files <$> accounts (database s'))
          = [[(text "f.txt", text "alice/f.txt", true)]].
Proof.
  pose proof (transfer_success_outcome (blob "f.txt") (text "f.txt")
                (text "alice") kept_directory eq_refl eq_refl) as Hrun.
  cbv zeta in Hrun.
  destruct (save_file _ _ _ _ _) as [ok db'] eqn:Hsave in Hrun.
  vm_compute in Hsave. injection Hsave as <- <-.
  destruct Hrun as [Hrun Hdisk].
  eexists. split; [exact Hrun|]. vm_compute. repeat split.
Defined.

Lemma absolute_file_name_leaves_directory_witness :
  os_path_join (text "alice") (text "/etc/passwd") = text "/etc/passwd"
  ∧ ∃ s', handle_transfer_success (blob "/etc/passwd") chunk_session
          = (Ret tt, s')
          ∧ (files <$> accounts (database s'))
            = [[(text "/etc/passwd", text "/etc/passwd", true)]].
Proof.
  destruct (absolute_file_name_leaves_directory (blob "/etc/passwd")
              (text "/etc/passwd") (text "etc/passwd") (text "alice")
              (save_file serving (Some id_alice) (text "/etc/passwd")
                 (text "/etc/passwd") true).2
              chunk_session) as [Hjoin Hrun];
    [vm_compute; reflexivity..|].
  split; [vm_compute; reflexivity|].
  eexists. split; [exact Hrun|]. vm_compute. reflexivity.
Defined.

Lemma undecodable_text_escapes_witness :
  handle_login [xff] chunk_session = (Raise UnicodeDecodeError, chunk_session)
  ∧ handle_register [xff] chunk_session
    = (Raise UnicodeDecodeError, chunk_session).
Proof.
  destruct (undecodable_text_escapes chunk_session) as (_ & Htext & _).
  destruct (Htext [xff] eq_refl) as (Hlogin & _ & _ & Hregister).
  split; [exact Hlogin|]. apply Hregister. vm_compute. eauto.
Defined.

Lemma transfer_failed_without_directory_witness :
  handle_transfer_failed (blob "f.txt") registered
  = (Raise FileNotFoundError, registered).
Proof.
  apply (transfer_failed_without_directory (blob "f.txt") (text "f.txt")
           (text "alice") registered);
    vm_compute; reflexivity.
Defined.

Lemma chunk_without_session_key_witness :
  ∃ s', handle_save_file block_packet registered = (Raise TypeError, s')
        ∧ disk s' = {[ text "alice" := Directory ∅ ]}
        ∧ sent s' = [] ∧ received_packets s' = 0.
Proof.
  destruct (chunk_without_session_key block_packet
              (text "f.txt" ++ replicate 250 0%N) (text "alice") registered)
    as [Hrun _]; [vm_compute; lia | vm_compute; reflexivity..|].
  eexists. split; [exact Hrun|]. vm_compute. repeat split.
Defined.

Lemma chunk_under_regular_file_witness :
  handle_save_file block_packet blocked
  = (Ret tt, set_running false (set_sent [general_error] blocked)).
Proof.
  apply (chunk_under_regular_file block_packet
           (text "f.txt" ++ replicate 250 0%N) (text "alice")
           (replicate 32 x01) (blob "not a directory") blocked);
    first [ vm_compute; lia | vm_compute; reflexivity ].
Defined.

Lemma completion_is_counted_witness :
  (handle_save_file block_packet chunk_session).1 = Ret tt
  ∧ received_packets (handle_save_file block_packet chunk_session).2 = 1
  ∧ sent (handle_save_file block_packet chunk_session).2 = [].
Proof.
  destruct (completion_is_counted block_packet 1 2 (text "alice")
              (text "f.txt") (replicate 32 x01) ∅ chunk_session)
    as [Hret Hrest]; try (vm_compute; reflexivity).
  - split; [vm_compute; lia|].
    split; [exists (text "f.txt" ++ replicate 250 0%N);
            split; vm_compute; reflexivity|].
    repeat split; vm_compute; reflexivity.
  - change (received_packets chunk_session + 1 =? 2) with false in Hrest.
    destruct Hrest as [Hcount Hsent]. repeat split; assumption.
Defined.

Lemma received_packets_never_negative_witness :
  0 ≤ received_packets (get_requests 3 two_registrations).2.
Proof.
  apply (received_packets_never_negative 3 two_registrations).
  vm_compute. discriminate.
Defined.

Lemma transport_fault_ends_silently_witness :
  get_requests 1 short_header
  = (Ret tt, set_running false (set_incoming [] short_header)).
Proof.
  apply (transport_fault_ends_silently 0 (inr (blob "hello world")) []
           short_header); [reflexivity | reflexivity |].
  intros header [= <-]. vm_compute. discriminate.
Defined.


Lemma wire_fields_are_bounded_witness :
  0 ≤ 1030 < 65536 ∧ Z.of_nat (length (blob "f.txt")) < 4294967296.
Proof.
  destruct (@wire_fields_are_bounded store) as [Hrequest _].
  apply (Hrequest pipelined 1030 (blob "f.txt")
           (set_incoming [Data (header id_B 7 0)]
              (set_client_id (Some id_A) pipelined))).
  vm_compute. reflexivity.
Defined.

Lemma cleared_running_stops_reading_witness :
  get_requests 2 unknown_request
  = (Ret tt,
     set_running false
       (set_sent [general_error]
          (set_incoming [] (set_client_id (Some id_A) unknown_request)))).
Proof.
  destruct (cleared_running_stops_reading 0 7 (blob "hi") unknown_request
              (set_incoming [] (set_client_id (Some id_A) unknown_request))
              (set_running false
                 (set_sent [general_error]
                    (set_incoming []
                       (set_client_id (Some id_A) unknown_request)))))
    as [Hrun _]; [reflexivity..|exact Hrun].
Defined.

Lemma get_requests_terminates_witness :
  (get_requests 93 two_registrations).1 = Ret tt.
Proof.
  pose proof (get_requests_terminates 93 two_registrations) as Hend.
  destruct (get_requests 93 two_registrations) as [[[]|e|] s'] eqn:Hrun.
  - reflexivity.
  - vm_compute in Hrun. discriminate Hrun.
  - exfalso. apply Hend; [vm_compute; lia | reflexivity].
Defined.

Lemma retransmission_reproduces_file_witness :
  ∃ s1 s2,
    save_all two_packets chunk_session = (Ret tt, s1)
    ∧ save_all two_packets s1 = (Ret tt, s2)
    ∧ file_content (disk s2) (text "alice/f.txt")
      = Some (replicate 1024 "a"%byte ++ blob "0123")
    ∧ length (sent s2) = 2%nat.
Proof.
  destruct (retransmission_reproduces_file (text "alice") (text "f.txt")
              (replicate 32 x01) two_packets ∅ chunk_session)
    as (s1 & s2 & final & _ & Hrun1 & Hrun2 & _ & Hfile & Hsent);
    [reflexivity | reflexivity | reflexivity | done | reflexivity
    | reflexivity | reflexivity | reflexivity | |].
  - intros [|[|i]] p [= <-];
      (split; [vm_compute; lia|]);
      (split; [exists (text "f.txt" ++ replicate 250 0%N);
               split; vm_compute; reflexivity|]);
      repeat split; vm_compute; reflexivity.
  - exists s1, s2. split; [exact Hrun1|]. split; [exact Hrun2|].
    split; [etrans; [exact Hfile | vm_compute; reflexivity]|].
    cbv zeta in Hsent. by rewrite Hsent.
Defined.

End FurtherExamples.

Section FrozenExamples.
Import Reference Scenario.
#[local] Existing Instance frozen_store.

(** A registration on a store that refuses writes. *)
Lemma refused_creation_keeps_derived_identifier_witness :
  let s : State frozen := init [] {| held := empty_store |} ∅ in
  handle_register alice_payload s =
    (Ret tt, set_sent [general_error] (set_client_id (Some id_alice) s)).
Proof.
  intros s.
  apply (refused_creation_keeps_derived_identifier alice_payload
           (text "alice" ++ [0%N]) id_alice {| held := empty_store |} s);
    vm_compute; reflexivity.
Defined.

End FrozenExamples.

(** ** Faults on concrete sessions *)

Section FaultExamples.
Import Reference Scenario.


End FaultExamples.
